(** * libluavars: the Lua binding of the variable server client library

    A shallow embedding of [src/libluavars.c].  The binding is glue between
    three things it does not own: the Lua runtime (the stack it receives
    arguments on and pushes results to), the variable server client library
    ([varserver/varserver.h], [varserver/var.h]) and the C library (stdio
    streams, real-time signals).  The three are interfaces here, the code of
    the binding is written against them, and every call that leaves the
    binding is logged in a trace, so that the order of calls can be stated. *)

From Stdlib Require Import ZArith String Ascii.
From Stdlib Require Import Floats.PrimFloat Floats.SpecFloat Floats.FloatOps.
From Stdlib Require Import Floats.FloatAxioms.
From stdpp Require Import base option list gmap strings pretty.

Local Open Scope string_scope.
Local Open Scope list_scope.
Local Open Scope Z_scope.

(** ** C data *)

(** [lua_Number] is a C [double]. *)
Definition lua_Number : Set := float.

(** Conversion of a C integer to [double]: exact below 2^53, rounded to the
    nearest double (ties to even) above. *)
Definition Z2double (z : Z) : lua_Number :=
  SF2Prim (binary_normalize 53 1024 z 0 false).

(** Truncation of a double toward zero; [None] for infinities and NaN. *)
Definition double_trunc (d : lua_Number) : option Z :=
  match Prim2SF d with
  | S754_zero _ => Some 0
  | S754_finite s m e =>
      let a := if (0 <=? e)%Z then Z.pos m * 2 ^ e else Z.pos m / 2 ^ (- e) in
      Some (if s then - a else a)
  | S754_infinity _ => None
  | S754_nan => None
  end.

(** Conversion of a double to [uint32_t]: the truncated value when it is
    representable, undefined by C otherwise ([None]). *)
Definition double_to_uint32 (d : lua_Number) : option Z :=
  match double_trunc d with
  | Some z => if (0 <=? z) && (z <? 2 ^ 32) then Some z else None
  | None => None
  end.

(** Conversion of a double to [int] (the representation of a C enum). *)
Definition double_to_int (d : lua_Number) : option Z :=
  match double_trunc d with
  | Some z => if (- 2 ^ 31 <=? z) && (z <? 2 ^ 31) then Some z else None
  | None => None
  end.

(** [VARSERVER_HANDLE] is a pointer: [None] is [NULL], [Some a] the address. *)
Definition VARSERVER_HANDLE : Set := option Z.

(** [VAR_HANDLE] is declared in [varserver/var.h], which is not among the
    sources.  The binding pushes it with [lua_pushnumber] and assigns the
    result of [luaL_checknumber] to it: it is an arithmetic type, taken here
    to be [uint32_t] like the transaction identifiers of the binding. *)
Definition VAR_HANDLE : Set := Z.

(** [FILE *]: [None] is [NULL]. *)
Definition FILE_ptr : Set := option Z.

(** [VarType] is declared in [varserver/var.h], which is not among the
    sources: the enumerators the binding switches on, and one constructor
    for those it does not name (the [default] branches). *)
Inductive VarType : Set :=
| VARTYPE_STR
| VARTYPE_INT16
| VARTYPE_UINT16
| VARTYPE_INT32
| VARTYPE_UINT32
| VARTYPE_INT64
| VARTYPE_UINT64
| VARTYPE_FLOAT
| VARTYPE_unnamed (tag : Z).

(** The union [var.val] of a [VarObject] (also from [varserver/var.h]): one
    view per member the binding reads.  [val_str] is the C string found in
    the buffer the member points to. *)
Record VarData : Set := mkVarData {
  val_str : string;
  val_i : Z;
  val_ui : Z;
  val_l : Z;
  val_ul : Z;
  val_ll : Z;
  val_ull : Z;
  val_f : float
}.

Record VarObject : Set := mkVarObject {
  var_type : VarType;
  var_len : Z;
  var_val : VarData
}.

(** [siginfo_t], reduced to the member the binding reads:
    [_sifields._timer.si_sigval.sival_int]. *)
Record siginfo_t : Set := mkSiginfo { sival_int : Z }.

(** [sigset_t] *)
Abbreviation sigset_t := (gset Z).

Definition sigemptyset : sigset_t := ∅.
Definition sigaddset (set : sigset_t) (signo : Z) : sigset_t := {[ signo ]} ∪ set.

(** ** Lua data *)

(** The C functions of the library, as Lua values. *)
Inductive lua_CFunction : Set :=
| fn_var_get
| fn_var_find
| fn_var_set
| fn_var_notify
| fn_var_wait
| fn_var_validate_start
| fn_var_validate_end
| fn_var_open_print_session
| fn_var_close_print_session
| fn_global_unload.

Inductive LuaValue : Set :=
| LNil
| LNumber (n : lua_Number)
| LString (s : string)
| LUserdata (p : nat)
| LTable (fields : list (string * lua_CFunction)).
Arguments LNumber n%_float.

Record luaL_Stream : Set := mkStream {
  stream_f : FILE_ptr;
  stream_closef : option lua_CFunction
}.

(** The print session object *)
Record LuaPrintSession : Set := mkSession {
  ps_stream : luaL_Stream;
  ps_fd : Z;
  ps_id : Z;
  ps_hVar : VAR_HANDLE
}.

(** [memset( p, 0, sizeof( LuaPrintSession ) )] *)
Definition zero_session : LuaPrintSession :=
  mkSession (mkStream None None) 0 0 0.

(** A full userdata block: its metatable (by registry name) and its bytes. *)
Record Userdata : Set := mkUserdata {
  ud_metatable : option string;
  ud_block : LuaPrintSession
}.

Definition LUA_FILEHANDLE : string := "FILE*".

(** An error raised through [lua_error] (a [longjmp] out of the C function). *)
Inductive LuaError : Set :=
| bad_argument (arg : nat) (expected : string).

(** [lua_State *L]: [NULL], or the pointer to the state the world holds. *)
Inductive lua_State_ptr : Set :=
| L_NULL
| L_state.

(** ** The interfaces the binding is compiled against *)

(** The variable server client library.  [Srv] is everything behind it (the
    library's own data and the server process).  A call maps the state to
    its results and the next state; [None] is a call that does not come
    back (C leaves what happens with a pointer that is not a live
    connection undefined).  Output parameters are returned next to the
    status. *)
Class VarServerLib := {
  Srv : Type;
  EOK : Z;
  VAR_INVALID : VAR_HANDLE;
  SIG_VAR_MODIFIED : Z;
  SIG_VAR_CALC : Z;
  SIG_VAR_VALIDATE : Z;
  SIG_VAR_PRINT : Z;
  NOTIFY_MODIFIED : Z;
  NOTIFY_CALC : Z;
  NOTIFY_VALIDATE : Z;
  NOTIFY_PRINT : Z;
  VARSERVER_Open : Srv → option (VARSERVER_HANDLE * Srv);
  VARSERVER_Close : VARSERVER_HANDLE → Srv → option (Z * Srv);
  VAR_FindByName : VARSERVER_HANDLE → string → Srv → option (VAR_HANDLE * Srv);
  VAR_Get : VARSERVER_HANDLE → VAR_HANDLE → Z → Srv → option ((Z * VarObject) * Srv);
  VAR_GetType : VARSERVER_HANDLE → VAR_HANDLE → Srv → option ((Z * VarType) * Srv);
  VAR_SetStr : VARSERVER_HANDLE → VAR_HANDLE → VarType → string → Srv → option (Z * Srv);
  VAR_Notify : VARSERVER_HANDLE → VAR_HANDLE → Z → Srv → option (Z * Srv);
  VAR_GetValidationRequest :
    VARSERVER_HANDLE → Z → Z → Srv → option ((Z * VAR_HANDLE * VarObject) * Srv);
  VAR_SendValidationResponse : VARSERVER_HANDLE → Z → Z → Srv → option (Z * Srv);
  VAR_OpenPrintSession : VARSERVER_HANDLE → Z → Srv → option ((Z * VAR_HANDLE * Z) * Srv);
  VAR_ClosePrintSession : VARSERVER_HANDLE → Z → Z → Srv → option (Z * Srv)
}.

(** The C library and the kernel.  [fclose] is undefined on a pointer that
    is not an open stream ([None]); [sigwaitinfo] has no timeout, [None] is
    the call that never returns because no signal of the set arrives.  It
    receives the current bytes of [info] and returns them as it leaves
    them. *)
Class Platform := {
  Plat : Type;
  BUFSIZ : Z;
  SIGRTMIN : Z;
  SIG_BLOCK : Z;
  fdopen : Z → string → Plat → FILE_ptr * Plat;
  fclose : Z → Plat → option (Z * Plat);
  sigprocmask : Z → sigset_t → Plat → Z * Plat;
  sigwaitinfo : sigset_t → siginfo_t → Plat → option ((Z * siginfo_t) * Plat);
  strerror : Z → string;
  uninitialised_siginfo : Plat → siginfo_t
}.

(** Lua's coercions between numbers and strings ([lua_tolstring] on a
    number, [lua_tonumber] on a string). *)
Class LuaConv := {
  lua_Number2str : lua_Number → string;
  lua_str2number : string → option lua_Number
}.

(** Calls that leave the binding *)
Inductive Event : Type :=
| EvOpen
| EvClose (h : VARSERVER_HANDLE)
| EvFindByName (h : VARSERVER_HANDLE) (name : string)
| EvGet (h : VARSERVER_HANDLE) (hVar : VAR_HANDLE) (len : Z)
| EvGetType (h : VARSERVER_HANDLE) (hVar : VAR_HANDLE)
| EvSetStr (h : VARSERVER_HANDLE) (hVar : VAR_HANDLE) (type : VarType) (value : string)
| EvNotify (h : VARSERVER_HANDLE) (hVar : VAR_HANDLE) (kind : Z)
| EvGetValidationRequest (h : VARSERVER_HANDLE) (id : Z)
| EvSendValidationResponse (h : VARSERVER_HANDLE) (id : Z) (response : Z)
| EvOpenPrintSession (h : VARSERVER_HANDLE) (id : Z)
| EvClosePrintSession (h : VARSERVER_HANDLE) (id : Z) (fd : Z)
| EvFdopen (fd : Z) (mode : string)
| EvFclose (fp : Z)
| EvSigprocmask (how : Z) (set : sigset_t)
| EvSigwaitinfo (set : sigset_t).

(** ** The world the binding runs in *)

Section Binding.
Context {vs : VarServerLib} {pl : Platform} {lc : LuaConv}.

(** [hVarServer] is the file's static handle; the Lua state is the stack of
    the running C function (index 1 first, pushes at the end), the userdata
    heap, the globals and the names of the metatables in the registry. *)
Record World := mkWorld {
  hVarServer : VARSERVER_HANDLE;
  server : Srv;
  platform : Plat;
  lua_stack : list LuaValue;
  lua_heap : gmap nat Userdata;
  lua_globals : gmap string LuaValue;
  lua_registry : gset string;
  trace : list Event
}.

Definition set_hVarServer (h : VARSERVER_HANDLE) (w : World) : World :=
  mkWorld h (server w) (platform w) (lua_stack w) (lua_heap w)
          (lua_globals w) (lua_registry w) (trace w).

Definition set_server (s : Srv) (w : World) : World :=
  mkWorld (hVarServer w) s (platform w) (lua_stack w) (lua_heap w)
          (lua_globals w) (lua_registry w) (trace w).

Definition set_platform (p : Plat) (w : World) : World :=
  mkWorld (hVarServer w) (server w) p (lua_stack w) (lua_heap w)
          (lua_globals w) (lua_registry w) (trace w).

Definition set_stack (s : list LuaValue) (w : World) : World :=
  mkWorld (hVarServer w) (server w) (platform w) s (lua_heap w)
          (lua_globals w) (lua_registry w) (trace w).

Definition set_heap (m : gmap nat Userdata) (w : World) : World :=
  mkWorld (hVarServer w) (server w) (platform w) (lua_stack w) m
          (lua_globals w) (lua_registry w) (trace w).

Definition set_globals (g : gmap string LuaValue) (w : World) : World :=
  mkWorld (hVarServer w) (server w) (platform w) (lua_stack w) (lua_heap w)
          g (lua_registry w) (trace w).

Definition log (ev : Event) (w : World) : World :=
  mkWorld (hVarServer w) (server w) (platform w) (lua_stack w) (lua_heap w)
          (lua_globals w) (lua_registry w) (trace w ++ [ev]).

(** How a C function of the binding ends: it returns, it leaves through
    [lua_error], it never returns (blocked in the kernel), or its behaviour
    is undefined by C. *)
Inductive Outcome (A : Type) : Type :=
| Done (a : A) (w : World)
| Raise (e : LuaError) (w : World)
| Blocked
| Undefined.
Global Arguments Done {A} a w.
Global Arguments Raise {A} e w.
Global Arguments Blocked {A}.
Global Arguments Undefined {A}.

Definition M (A : Type) : Type := World → Outcome A.

Global Instance M_ret : MRet M := λ A a w, Done a w.

Global Instance M_bind : MBind M := λ A B k m w,
  match m w with
  | Done a w' => k a w'
  | Raise e w' => Raise e w'
  | Blocked => Blocked
  | Undefined => Undefined
  end.

Definition undefined {A} : M A := λ _, Undefined.
Definition lua_error {A} (e : LuaError) : M A := λ w, Raise e w.
Definition gets {A} (g : World → A) : M A := λ w, Done (g w) w.
Definition modify (g : World → World) : M unit := λ w, Done tt (g w).

(** A call into the variable server library *)
Definition call_server {A} (ev : Event) (op : Srv → option (A * Srv)) : M A :=
  λ w, match op (server w) with
       | Some (a, s) => Done a (set_server s (log ev w))
       | None => Undefined
       end.

(** A call into the C library that returns *)
Definition call_libc {A} (ev : Event) (op : Plat → A * Plat) : M A :=
  λ w, let r := op (platform w) in Done r.1 (set_platform r.2 (log ev w)).

(** A call into the C library that is undefined on some arguments *)
Definition call_libc_partial {A} (ev : Event) (op : Plat → option (A * Plat)) : M A :=
  λ w, match op (platform w) with
       | Some (a, p) => Done a (set_platform p (log ev w))
       | None => Undefined
       end.

(** A system call that blocks until it has a result *)
Definition call_blocking {A} (ev : Event) (op : Plat → option (A * Plat)) : M A :=
  λ w, match op (platform w) with
       | Some (a, p) => Done a (set_platform p (log ev w))
       | None => Blocked
       end.

(** Implicit conversions of a [lua_Number] to a C integer type *)
Definition to_uint32 (d : lua_Number) : M Z :=
  match double_to_uint32 d with Some z => mret z | None => undefined end.

Definition to_enum (d : lua_Number) : M Z :=
  match double_to_int d with Some z => mret z | None => undefined end.

(** ** The Lua C API, as far as the binding uses it *)

(** Every API function dereferences [L]. *)
Definition deref {A} (L : lua_State_ptr) (m : M A) : M A :=
  match L with L_NULL => undefined | L_state => m end.

Definition is_NULL (L : lua_State_ptr) : bool :=
  match L with L_NULL => true | L_state => false end.

(** The value at a positive stack index; [None] where there is none. *)
Definition index2value (w : World) (idx : nat) : option LuaValue :=
  match idx with
  | O => None
  | S k => lua_stack w !! k
  end.

Definition push (v : LuaValue) : M unit :=
  modify (λ w, set_stack (lua_stack w ++ [v]) w).

Definition lua_pushnil (L : lua_State_ptr) : M unit :=
  deref L (push LNil).

Definition lua_pushnumber (L : lua_State_ptr) (n : lua_Number) : M unit :=
  deref L (push (LNumber n)).

Definition lua_pushstring (L : lua_State_ptr) (s : string) : M unit :=
  deref L (push (LString s)).

(** [luaL_typename( L, idx )] *)
Definition luaL_typename (L : lua_State_ptr) (idx : nat) : M string :=
  deref L (gets (λ w,
    match index2value w idx with
    | None => "no value"
    | Some LNil => "nil"
    | Some (LNumber _) => "number"
    | Some (LString _) => "string"
    | Some (LUserdata _) => "userdata"
    | Some (LTable _) => "table"
    end)).

(** [luaL_checklstring]: a string is returned as it is, a number is
    converted to a string in its stack slot, anything else raises.  The
    function never returns [NULL]. *)
Definition luaL_checklstring (L : lua_State_ptr) (arg : nat) : M string :=
  deref L (λ w,
    match index2value w arg with
    | Some (LString s) => Done s w
    | Some (LNumber n) =>
        let s := lua_Number2str n in
        Done s (set_stack (<[Nat.pred arg := LString s]> (lua_stack w)) w)
    | _ => Raise (bad_argument arg "string") w
    end).

(** [luaL_checknumber]: a number, or a string that converts to one. *)
Definition luaL_checknumber (L : lua_State_ptr) (arg : nat) : M lua_Number :=
  deref L (λ w,
    match index2value w arg with
    | Some (LNumber n) => Done n w
    | Some (LString s) =>
        match lua_str2number s with
        | Some n => Done n w
        | None => Raise (bad_argument arg "number") w
        end
    | _ => Raise (bad_argument arg "number") w
    end).

(** [luaL_checkudata]: the address of a full userdata whose metatable is
    the registry's [tname], an error otherwise.  Never [NULL]. *)
Definition luaL_checkudata (L : lua_State_ptr) (arg : nat) (tname : string) : M nat :=
  deref L (λ w,
    match index2value w arg with
    | Some (LUserdata p) =>
        match lua_heap w !! p with
        | Some ud =>
            if bool_decide (ud_metatable ud = Some tname ∧ tname ∈ lua_registry w)
            then Done p w
            else Raise (bad_argument arg tname) w
        | None => Raise (bad_argument arg tname) w
        end
    | _ => Raise (bad_argument arg tname) w
    end).

(** [lua_newuserdata]: a fresh block without metatable, pushed on the
    stack.  Its bytes are not initialised; the model fills them with zeros
    and the binding assigns every member before it returns. *)
Definition lua_newuserdata (L : lua_State_ptr) : M nat :=
  deref L (λ w,
    let p := fresh (dom (lua_heap w)) in
    Done p (set_stack (lua_stack w ++ [LUserdata p])
             (set_heap (<[p := mkUserdata None zero_session]> (lua_heap w)) w))).

(** [luaL_setmetatable]: gives the value on top of the stack the metatable
    registered under [tname] (none when the name is not registered). *)
Definition luaL_setmetatable (L : lua_State_ptr) (tname : string) : M unit :=
  deref L (λ w,
    match last (lua_stack w) with
    | Some (LUserdata p) =>
        let mt := if bool_decide (tname ∈ lua_registry w) then Some tname else None in
        Done tt (set_heap (alter (λ ud, mkUserdata mt (ud_block ud)) p (lua_heap w)) w)
    | _ => Done tt w
    end).

Definition lua_newtable (L : lua_State_ptr) : M unit :=
  deref L (push (LTable [])).

(** [luaL_setfuncs( L, l, 0 )]: registers the functions of [l] in the table
    on top of the stack. *)
Definition luaL_setfuncs (L : lua_State_ptr) (lib : list (string * lua_CFunction)) : M unit :=
  deref L (λ w,
    match last (lua_stack w) with
    | Some (LTable t) =>
        Done tt (set_stack (removelast (lua_stack w) ++ [LTable (t ++ lib)]) w)
    | _ => Undefined
    end).

(** [lua_setglobal]: pops the value on top and stores it as a global. *)
Definition lua_setglobal (L : lua_State_ptr) (name : string) : M unit :=
  deref L (λ w,
    match last (lua_stack w) with
    | Some v =>
        Done tt (set_stack (removelast (lua_stack w))
                  (set_globals (<[name := v]> (lua_globals w)) w))
    | None => Undefined
    end).

(** Members of the session object at [p] *)
Definition session (p : nat) : M LuaPrintSession :=
  λ w, match lua_heap w !! p with
       | Some ud => Done (ud_block ud) w
       | None => Undefined
       end.

Definition store (p : nat) (g : LuaPrintSession → LuaPrintSession) : M unit :=
  λ w, match lua_heap w !! p with
       | Some ud =>
           Done tt (set_heap (<[p := mkUserdata (ud_metatable ud) (g (ud_block ud))]>
                               (lua_heap w)) w)
       | None => Undefined
       end.

(** The [n] topmost values of a stack *)
Definition top (n : Z) (s : list LuaValue) : list LuaValue :=
  drop (length s - Z.to_nat n)%nat s.

(** How Lua calls a C function: the stack holds the arguments, the function
    returns the number of results, which are the topmost values. *)
Definition lua_call (fn : lua_State_ptr → M Z) (args : list LuaValue) : M (list LuaValue) :=
  modify (set_stack args);;
  n ← fn L_state;
  s ← gets lua_stack;
  modify (set_stack []);;
  mret (top n s).

(** What the caller reads from the results when it expects [k] values:
    missing ones are [nil]. *)
Definition adjust (k : nat) (results : list LuaValue) : list LuaValue :=
  take k (results ++ replicate k LNil).

(** ** The binding *)

(** [vars_lib] *)
Definition vars_lib : list (string * lua_CFunction) :=
  [ ("get", fn_var_get);
    ("find", fn_var_find);
    ("set", fn_var_set);
    ("notify", fn_var_notify);
    ("wait", fn_var_wait);
    ("validate_start", fn_var_validate_start);
    ("validate_end", fn_var_validate_end);
    ("open_print_session", fn_var_open_print_session);
    ("close_print_session", fn_var_close_print_session);
    ("__unload", fn_global_unload) ].

(** [global_unload] *)
Definition global_unload (L : lua_State_ptr) : M Z :=
  h ← gets hVarServer;
  (if bool_decide (h ≠ None)
   then _ ← call_server (EvClose h) (VARSERVER_Close h); mret tt
   else mret tt);;
  mret 0.

(** [lua_setConst( name )] *)
Definition lua_setConst (L : lua_State_ptr) (name : string) (value : Z) : M unit :=
  lua_pushnumber L (Z2double value);;
  lua_setglobal L name.

(** [setup_globals] *)
Definition setup_globals (L : lua_State_ptr) : M unit :=
  if is_NULL L then mret tt else
    lua_setConst L "SIG_VAR_MODIFIED" SIG_VAR_MODIFIED;;
    lua_setConst L "SIG_VAR_CALC" SIG_VAR_CALC;;
    lua_setConst L "SIG_VAR_VALIDATE" SIG_VAR_VALIDATE;;
    lua_setConst L "SIG_VAR_PRINT" SIG_VAR_PRINT;;
    lua_setConst L "NOTIFY_MODIFIED" NOTIFY_MODIFIED;;
    lua_setConst L "NOTIFY_CALC" NOTIFY_CALC;;
    lua_setConst L "NOTIFY_VALIDATE" NOTIFY_VALIDATE;;
    lua_setConst L "NOTIFY_PRINT" NOTIFY_PRINT.

(** [luaopen_libluavars] *)
Definition luaopen_libluavars (L : lua_State_ptr) : M Z :=
  (if is_NULL L then mret tt else
     h ← gets hVarServer;
     (if bool_decide (h = None)
      then h' ← call_server EvOpen VARSERVER_Open; modify (set_hVarServer h')
      else mret tt);;
     lua_newtable L;;
     luaL_setfuncs L vars_lib;;
     setup_globals L);;
  mret 1.

(** [var_get].  The test [name != NULL] of the source always holds. *)
Definition var_get (L : lua_State_ptr) : M Z :=
  result ←
    (if is_NULL L then mret 0 else
       name ← luaL_checklstring L 1;
       h ← gets hVarServer;
       hVar ← call_server (EvFindByName h name) (VAR_FindByName h name);
       if bool_decide (hVar ≠ VAR_INVALID) then
         '(rc, var) ← call_server (EvGet h hVar BUFSIZ) (VAR_Get h hVar BUFSIZ);
         if bool_decide (rc = EOK) then
           match var_type var with
           | VARTYPE_STR =>
               lua_pushstring L (val_str (var_val var));; mret 1
           | VARTYPE_UINT16 =>
               lua_pushnumber L (Z2double (val_ui (var_val var)));; mret 1
           | VARTYPE_UINT32 =>
               lua_pushnumber L (Z2double (val_ul (var_val var)));; mret 1
           | VARTYPE_FLOAT =>
               lua_pushnumber L (val_f (var_val var));; mret 1
           | _ => mret 0
           end
         else mret 0
       else mret 0);
  (if bool_decide (result = 0) then lua_pushnil L else mret tt);;
  mret result.

(** [var_find].  The test [name != NULL] of the source always holds. *)
Definition var_find (L : lua_State_ptr) : M Z :=
  result ←
    (if is_NULL L then mret 0 else
       name ← luaL_checklstring L 1;
       h ← gets hVarServer;
       hVar ← call_server (EvFindByName h name) (VAR_FindByName h name);
       if bool_decide (hVar ≠ VAR_INVALID) then
         lua_pushnumber L (Z2double hVar);; mret 1
       else mret 0);
  (if bool_decide (result = 0) then lua_pushnil L else mret tt);;
  mret result.

(** [var_set].  [hVar] starts as [VAR_INVALID] and is assigned from a name
    (first argument a string) or from a handle (a number). *)
Definition var_set (L : lua_State_ptr) : M Z :=
  if is_NULL L then mret 0 else
    argtype ← luaL_typename L 1;
    hVar ←
      (if String.eqb argtype "string" then
         name ← luaL_checklstring L 1;
         h ← gets hVarServer;
         call_server (EvFindByName h name) (VAR_FindByName h name)
       else if String.eqb argtype "number" then
         n ← luaL_checknumber L 1;
         to_uint32 n
       else mret VAR_INVALID);
    value ← luaL_checklstring L 2;
    if bool_decide (hVar ≠ VAR_INVALID) then
      h ← gets hVarServer;
      '(rc, type) ← call_server (EvGetType h hVar) (VAR_GetType h hVar);
      if bool_decide (rc = EOK) then
        rc' ← call_server (EvSetStr h hVar type value) (VAR_SetStr h hVar type value);
        if bool_decide (rc' = EOK) then
          lua_pushnumber L (Z2double 1);; mret 1
        else
          lua_pushnil L;; mret 0
      else mret 0
    else
      lua_pushnil L;; mret 0.

(** [var_notify] *)
Definition var_notify (L : lua_State_ptr) : M Z :=
  (if is_NULL L then mret tt else
     n1 ← luaL_checknumber L 1;
     hVar ← to_uint32 n1;
     n2 ← luaL_checknumber L 2;
     notificationType ← to_enum n2;
     h ← gets hVarServer;
     result ← call_server (EvNotify h hVar notificationType)
                          (VAR_Notify h hVar notificationType);
     if bool_decide (result = EOK) then lua_pushnumber L (Z2double result)
     else lua_pushnil L);;
  mret 1.

(** [var_wait] *)
Definition var_wait (L : lua_State_ptr) : M Z :=
  if is_NULL L then mret 0 else
    let mask := sigemptyset in
    let mask := sigaddset mask (SIGRTMIN + 5) in
    let mask := sigaddset mask SIG_VAR_MODIFIED in
    let mask := sigaddset mask SIG_VAR_CALC in
    let mask := sigaddset mask SIG_VAR_PRINT in
    let mask := sigaddset mask SIG_VAR_VALIDATE in
    _ ← call_libc (EvSigprocmask SIG_BLOCK mask) (sigprocmask SIG_BLOCK mask);
    info ← gets (λ w, uninitialised_siginfo (platform w));
    '(sig, info) ← call_blocking (EvSigwaitinfo mask) (sigwaitinfo mask info);
    lua_pushnumber L (Z2double sig);;
    lua_pushnumber L (Z2double (sival_int info));;
    mret 2.

(** [var_validate_start] *)
Definition var_validate_start (L : lua_State_ptr) : M Z :=
  if is_NULL L then mret 0 else
    n ← luaL_checknumber L 1;
    id ← to_uint32 n;
    h ← gets hVarServer;
    '(rc, hVar, var) ← call_server (EvGetValidationRequest h id)
                                   (VAR_GetValidationRequest h id BUFSIZ);
    if bool_decide (rc = EOK) then
      lua_pushnumber L (Z2double hVar);;
      match var_type var with
      | VARTYPE_STR => lua_pushstring L (val_str (var_val var));; mret 2
      | VARTYPE_INT16 => lua_pushnumber L (Z2double (val_i (var_val var)));; mret 2
      | VARTYPE_UINT16 => lua_pushnumber L (Z2double (val_ui (var_val var)));; mret 2
      | VARTYPE_INT32 => lua_pushnumber L (Z2double (val_l (var_val var)));; mret 2
      | VARTYPE_UINT32 => lua_pushnumber L (Z2double (val_ul (var_val var)));; mret 2
      | VARTYPE_INT64 => lua_pushnumber L (Z2double (val_ll (var_val var)));; mret 2
      | VARTYPE_UINT64 => lua_pushnumber L (Z2double (val_ull (var_val var)));; mret 2
      | VARTYPE_FLOAT => lua_pushnumber L (val_f (var_val var));; mret 2
      | VARTYPE_unnamed _ => mret 0
      end
    else mret 0.

(** [var_validate_end].  The arguments are read before [L] is tested. *)
Definition var_validate_end (L : lua_State_ptr) : M Z :=
  n1 ← luaL_checknumber L 1;
  id ← to_uint32 n1;
  n2 ← luaL_checknumber L 2;
  response ← to_uint32 n2;
  (if is_NULL L then mret tt else
     h ← gets hVarServer;
     rc ← call_server (EvSendValidationResponse h id response)
                      (VAR_SendValidationResponse h id response);
     if bool_decide (rc = EOK) then lua_pushnumber L (Z2double 1)
     else lua_pushnil L);;
  mret 1.

(** [var_open_print_session].  [lua_newuserdata] never returns [NULL]. *)
Definition var_open_print_session (L : lua_State_ptr) : M Z :=
  n ← luaL_checknumber L 1;
  id ← to_uint32 n;
  h ← gets hVarServer;
  '(rc, hVar, fd) ← call_server (EvOpenPrintSession h id) (VAR_OpenPrintSession h id);
  if bool_decide (rc = EOK) then
    p ← lua_newuserdata L;
    luaL_setmetatable L LUA_FILEHANDLE;;
    store p (λ s, mkSession (ps_stream s) (ps_fd s) id (ps_hVar s));;
    store p (λ s, mkSession (ps_stream s) fd (ps_id s) (ps_hVar s));;
    fp ← call_libc (EvFdopen fd "w") (fdopen fd "w");
    store p (λ s, mkSession (ps_stream s) (ps_fd s) (ps_id s) hVar);;
    store p (λ s, mkSession (mkStream fp (stream_closef (ps_stream s)))
                            (ps_fd s) (ps_id s) (ps_hVar s));;
    store p (λ s, mkSession (mkStream (stream_f (ps_stream s))
                                      (Some fn_var_close_print_session))
                            (ps_fd s) (ps_id s) (ps_hVar s));;
    lua_pushnumber L (Z2double hVar);;
    mret 2
  else
    lua_pushnil L;;
    mret 1.

(** [var_close_print_session].  [luaL_checkudata] never returns [NULL], so
    the test of [pLuaPrintSession] always holds.  [fclose( NULL )] is
    undefined. *)
Definition var_close_print_session (L : lua_State_ptr) : M Z :=
  if is_NULL L then mret 0 else
    pLuaPrintSession ← luaL_checkudata L 1 LUA_FILEHANDLE;
    s ← session pLuaPrintSession;
    h ← gets hVarServer;
    result ← call_server (EvClosePrintSession h (ps_id s) (ps_fd s))
                         (VAR_ClosePrintSession h (ps_id s) (ps_fd s));
    match stream_f (ps_stream s) with
    | Some fp => _ ← call_libc_partial (EvFclose fp) (fclose fp); mret tt
    | None => undefined
    end;;
    store pLuaPrintSession (λ _, zero_session);;
    if bool_decide (result = EOK) then
      lua_pushnumber L (Z2double 1);;
      mret 1
    else
      lua_pushnil L;;
      lua_pushstring L (strerror result);;
      mret 2.

(** ** Reading outcomes *)

Definition returned {A} (o : Outcome A) : option A :=
  match o with Done a _ => Some a | _ => None end.

Definition final {A} (o : Outcome A) : option World :=
  match o with Done _ w => Some w | Raise _ w => Some w | _ => None end.

(** The calls an outcome added to the trace; none is visible when the
    function did not come back. *)
Definition calls {A} (w : World) (o : Outcome A) : list Event :=
  match final o with
  | Some w' => drop (length (trace w)) (trace w')
  | None => []
  end.

(** What the caller of a function reads when it expects [k] values *)
Definition caller_reads (k : nat) (o : Outcome (list LuaValue))
    : option (list LuaValue) :=
  adjust k <$> returned o.

(** The world a computation leaves; the world it started in when it did
    not come back. *)
Definition after {A} (m : M A) (w : World) : World :=
  default w (final (m w)).

End Binding.

(** ** A sample environment

    One instance of each interface, to run the binding on concrete inputs:
    a variable server with a table of variables, pending validation and
    print requests, a C library with a table of open streams and a queue of
    arriving signals, and Lua's number formatting. *)

Module Sample.

Definition ENOENT : Z := 2.
Definition EINVAL : Z := 22.
Definition ENOTSUP : Z := 95.

(** The address [VARSERVER_Open] returns *)
Definition client : Z := 4096.

Record server_state : Type := mkServer {
  connected : bool;
  names : gmap string VAR_HANDLE;
  values : gmap VAR_HANDLE VarObject;
  validations : gmap Z (VAR_HANDLE * VarObject);
  prints : gmap Z (VAR_HANDLE * Z)
}.

Definition no_data : VarData := mkVarData "" 0 0 0 0 0 0 0%float.
Definition no_object : VarObject := mkVarObject (VARTYPE_unnamed 0) 0 no_data.

Definition string_object (s : string) : VarObject :=
  mkVarObject VARTYPE_STR (Z.of_nat (String.length s) + 1)
              (mkVarData s 0 0 0 0 0 0 0%float).
Definition int16_object (z : Z) : VarObject :=
  mkVarObject VARTYPE_INT16 2 (mkVarData "" z 0 0 0 0 0 0%float).
Definition uint16_object (z : Z) : VarObject :=
  mkVarObject VARTYPE_UINT16 2 (mkVarData "" 0 z 0 0 0 0 0%float).
Definition int32_object (z : Z) : VarObject :=
  mkVarObject VARTYPE_INT32 4 (mkVarData "" 0 0 z 0 0 0 0%float).
Definition uint32_object (z : Z) : VarObject :=
  mkVarObject VARTYPE_UINT32 4 (mkVarData "" 0 0 0 z 0 0 0%float).
Definition int64_object (z : Z) : VarObject :=
  mkVarObject VARTYPE_INT64 8 (mkVarData "" 0 0 0 0 z 0 0%float).
Definition uint64_object (z : Z) : VarObject :=
  mkVarObject VARTYPE_UINT64 8 (mkVarData "" 0 0 0 0 0 z 0%float).
Definition float_object (x : float) : VarObject :=
  mkVarObject VARTYPE_FLOAT 4 (mkVarData "" 0 0 0 0 0 0 x).

(** A handle is live when it is the client's address and the connection
    has not been closed; the library dereferences it in every call. *)
Definition live (h : VARSERVER_HANDLE) (st : server_state) : bool :=
  bool_decide (h = Some client) && connected st.

Definition guarded {A} (h : VARSERVER_HANDLE) (st : server_state)
    (r : A * server_state) : option (A * server_state) :=
  if live h st then Some r else None.

(** Decimal numerals: digits, with an optional leading minus sign *)
Definition digit_value (c : ascii) : option Z :=
  let n := Z.of_nat (nat_of_ascii c) in
  if (48 <=? n) && (n <=? 57) then Some (n - 48) else None.

Fixpoint digits_value (acc : Z) (s : string) : option Z :=
  match s with
  | EmptyString => Some acc
  | String c s' =>
      match digit_value c with
      | Some d => digits_value (10 * acc + d) s'
      | None => None
      end
  end.

Definition decimal_value (s : string) : option Z :=
  match s with
  | EmptyString => None
  | String "-" (String c s') => Z.opp <$> digits_value 0 (String c s')
  | _ => digits_value 0 s
  end.

(** The object a variable holds after a set from a string: the text for a
    string variable, the number the text denotes when it is in the range of
    an integer variable. *)
Definition in_range (lo hi z : Z) : bool := (lo <=? z) && (z <=? hi).

Definition object_of_string (type : VarType) (value : string) : option VarObject :=
  match type with
  | VARTYPE_STR => Some (string_object value)
  | VARTYPE_INT16 =>
      z ← decimal_value value;
      if in_range (- 2 ^ 15) (2 ^ 15 - 1) z then Some (int16_object z) else None
  | VARTYPE_UINT16 =>
      z ← decimal_value value;
      if in_range 0 (2 ^ 16 - 1) z then Some (uint16_object z) else None
  | VARTYPE_INT32 =>
      z ← decimal_value value;
      if in_range (- 2 ^ 31) (2 ^ 31 - 1) z then Some (int32_object z) else None
  | VARTYPE_UINT32 =>
      z ← decimal_value value;
      if in_range 0 (2 ^ 32 - 1) z then Some (uint32_object z) else None
  | VARTYPE_INT64 =>
      z ← decimal_value value;
      if in_range (- 2 ^ 63) (2 ^ 63 - 1) z then Some (int64_object z) else None
  | VARTYPE_UINT64 =>
      z ← decimal_value value;
      if in_range 0 (2 ^ 64 - 1) z then Some (uint64_object z) else None
  | VARTYPE_FLOAT => None
  | VARTYPE_unnamed _ => None
  end.

Definition with_connected (b : bool) (st : server_state) : server_state :=
  mkServer b (names st) (values st) (validations st) (prints st).
Definition with_values (m : gmap VAR_HANDLE VarObject) (st : server_state) : server_state :=
  mkServer (connected st) (names st) m (validations st) (prints st).
Definition with_validations (m : gmap Z (VAR_HANDLE * VarObject)) (st : server_state)
    : server_state :=
  mkServer (connected st) (names st) (values st) m (prints st).
Definition with_prints (m : gmap Z (VAR_HANDLE * Z)) (st : server_state) : server_state :=
  mkServer (connected st) (names st) (values st) (validations st) m.

Definition open (st : server_state) : option (VARSERVER_HANDLE * server_state) :=
  Some (Some client, with_connected true st).

Definition close (h : VARSERVER_HANDLE) (st : server_state) : option (Z * server_state) :=
  guarded h st (0, with_connected false st).

Definition find_by_name (h : VARSERVER_HANDLE) (name : string) (st : server_state)
    : option (VAR_HANDLE * server_state) :=
  guarded h st (default 0 (names st !! name), st).

Definition get (h : VARSERVER_HANDLE) (hVar : VAR_HANDLE) (len : Z) (st : server_state)
    : option ((Z * VarObject) * server_state) :=
  guarded h st
    match values st !! hVar with
    | Some o => ((0, o), st)
    | None => ((ENOENT, no_object), st)
    end.

Definition get_type (h : VARSERVER_HANDLE) (hVar : VAR_HANDLE) (st : server_state)
    : option ((Z * VarType) * server_state) :=
  guarded h st
    match values st !! hVar with
    | Some o => ((0, var_type o), st)
    | None => ((ENOENT, VARTYPE_unnamed 0), st)
    end.

Definition set_str (h : VARSERVER_HANDLE) (hVar : VAR_HANDLE) (type : VarType)
    (value : string) (st : server_state) : option (Z * server_state) :=
  guarded h st
    match values st !! hVar with
    | Some _ =>
        match object_of_string type value with
        | Some o => (0, with_values (<[hVar := o]> (values st)) st)
        | None => (ENOTSUP, st)
        end
    | None => (ENOENT, st)
    end.

Definition notify (h : VARSERVER_HANDLE) (hVar : VAR_HANDLE) (kind : Z)
    (st : server_state) : option (Z * server_state) :=
  guarded h st
    match values st !! hVar with
    | Some _ => (0, st)
    | None => (ENOENT, st)
    end.

Definition get_validation_request (h : VARSERVER_HANDLE) (id len : Z) (st : server_state)
    : option ((Z * VAR_HANDLE * VarObject) * server_state) :=
  guarded h st
    match validations st !! id with
    | Some (hVar, o) => ((0, hVar, o), st)
    | None => ((ENOENT, 0, no_object), st)
    end.

Definition send_validation_response (h : VARSERVER_HANDLE) (id response : Z)
    (st : server_state) : option (Z * server_state) :=
  guarded h st
    match validations st !! id with
    | Some _ => (0, with_validations (delete id (validations st)) st)
    | None => (ENOENT, st)
    end.

Definition open_print_session (h : VARSERVER_HANDLE) (id : Z) (st : server_state)
    : option ((Z * VAR_HANDLE * Z) * server_state) :=
  guarded h st
    match prints st !! id with
    | Some (hVar, fd) => ((0, hVar, fd), st)
    | None => ((ENOENT, 0, -1), st)
    end.

Definition close_print_session (h : VARSERVER_HANDLE) (id fd : Z) (st : server_state)
    : option (Z * server_state) :=
  guarded h st
    match prints st !! id with
    | Some _ => (0, with_prints (delete id (prints st)) st)
    | None => (ENOENT, st)
    end.

Definition rt_min : Z := 34.

#[export] Instance server_lib : VarServerLib := {|
  Srv := server_state;
  EOK := 0;
  VAR_INVALID := 0;
  SIG_VAR_MODIFIED := rt_min + 6;
  SIG_VAR_CALC := rt_min + 7;
  SIG_VAR_VALIDATE := rt_min + 8;
  SIG_VAR_PRINT := rt_min + 9;
  NOTIFY_MODIFIED := 1;
  NOTIFY_CALC := 2;
  NOTIFY_VALIDATE := 3;
  NOTIFY_PRINT := 4;
  VARSERVER_Open := open;
  VARSERVER_Close := close;
  VAR_FindByName := find_by_name;
  VAR_Get := get;
  VAR_GetType := get_type;
  VAR_SetStr := set_str;
  VAR_Notify := notify;
  VAR_GetValidationRequest := get_validation_request;
  VAR_SendValidationResponse := send_validation_response;
  VAR_OpenPrintSession := open_print_session;
  VAR_ClosePrintSession := close_print_session
|}.

(** A second library over the same tables, which looks neither at the handle
    nor at the state of the connection: a call is answered as on the live
    connection, also after [VARSERVER_Close]. *)
Definition answering {A}
    (call : VARSERVER_HANDLE → server_state → option (A * server_state))
    (h : VARSERVER_HANDLE) (st : server_state) : option (A * server_state) :=
  match call (Some client) (with_connected true st) with
  | Some (a, st') => Some (a, with_connected (connected st) st')
  | None => None
  end.

Definition answering_lib : VarServerLib := {|
  Srv := server_state;
  EOK := 0;
  VAR_INVALID := 0;
  SIG_VAR_MODIFIED := rt_min + 6;
  SIG_VAR_CALC := rt_min + 7;
  SIG_VAR_VALIDATE := rt_min + 8;
  SIG_VAR_PRINT := rt_min + 9;
  NOTIFY_MODIFIED := 1;
  NOTIFY_CALC := 2;
  NOTIFY_VALIDATE := 3;
  NOTIFY_PRINT := 4;
  VARSERVER_Open := open;
  VARSERVER_Close := λ _ st, Some (0, with_connected false st);
  VAR_FindByName := λ h name, answering (λ h', find_by_name h' name) h;
  VAR_Get := λ h hVar len, answering (λ h', get h' hVar len) h;
  VAR_GetType := λ h hVar, answering (λ h', get_type h' hVar) h;
  VAR_SetStr := λ h hVar type value, answering (λ h', set_str h' hVar type value) h;
  VAR_Notify := λ h hVar kind, answering (λ h', notify h' hVar kind) h;
  VAR_GetValidationRequest :=
    λ h id len, answering (λ h', get_validation_request h' id len) h;
  VAR_SendValidationResponse :=
    λ h id response, answering (λ h', send_validation_response h' id response) h;
  VAR_OpenPrintSession := λ h id, answering (λ h', open_print_session h' id) h;
  VAR_ClosePrintSession := λ h id fd, answering (λ h', close_print_session h' id fd) h
|}.

(** The C library: the open streams by address, what will arrive at the
    process (signals with their payload, or an interruption of the wait),
    and the bytes an uninitialised [siginfo_t] on the stack holds. *)
Inductive arrival : Set :=
| Signal (signo value : Z)
| Interrupted.

Record platform_state : Type := mkPlatform {
  streams : gmap Z Z;
  arrivals : list arrival;
  stack_bytes : siginfo_t
}.

Definition stream_base : Z := 65536.

(** [fdopen] of a non-negative descriptor on which no stream is open yet *)
Definition sample_fdopen (fd : Z) (mode : string) (st : platform_state)
    : FILE_ptr * platform_state :=
  let fp := stream_base + fd in
  if (0 <=? fd) && bool_decide (streams st !! fp = None)
  then (Some fp, mkPlatform (<[fp := fd]> (streams st)) (arrivals st) (stack_bytes st))
  else (None, st).

Definition sample_fclose (fp : Z) (st : platform_state) : option (Z * platform_state) :=
  match streams st !! fp with
  | Some _ => Some (0, mkPlatform (delete fp (streams st)) (arrivals st) (stack_bytes st))
  | None => None
  end.

Definition sample_sigprocmask (how : Z) (set : sigset_t) (st : platform_state)
    : Z * platform_state :=
  (0, st).

(** The first arrival the wait reacts to: a signal of the set is consumed
    and its payload written to [info]; an interruption makes the call fail
    with -1 and leaves [info] alone; other signals are not for this call. *)
Fixpoint next_arrival (set : sigset_t) (info : siginfo_t) (q : list arrival)
    : option ((Z * siginfo_t) * list arrival) :=
  match q with
  | [] => None
  | Interrupted :: q' => Some ((-1, info), q')
  | Signal signo value :: q' =>
      if bool_decide (signo ∈ set) then Some ((signo, mkSiginfo value), q')
      else
        match next_arrival set info q' with
        | Some (r, q'') => Some (r, Signal signo value :: q'')
        | None => None
        end
  end.

Definition sample_sigwaitinfo (set : sigset_t) (info : siginfo_t) (st : platform_state)
    : option ((Z * siginfo_t) * platform_state) :=
  match next_arrival set info (arrivals st) with
  | Some (r, q) => Some (r, mkPlatform (streams st) q (stack_bytes st))
  | None => None
  end.

Definition sample_strerror (errnum : Z) : string :=
  if errnum =? 0 then "Success"
  else if errnum =? ENOENT then "No such file or directory"
  else if errnum =? EINVAL then "Invalid argument"
  else if errnum =? ENOTSUP then "Operation not supported"
  else "Unknown error " +:+ pretty errnum.

#[export] Instance libc : Platform := {|
  Plat := platform_state;
  BUFSIZ := 8192;
  SIGRTMIN := rt_min;
  SIG_BLOCK := 0;
  fdopen := sample_fdopen;
  fclose := sample_fclose;
  sigprocmask := sample_sigprocmask;
  sigwaitinfo := sample_sigwaitinfo;
  strerror := sample_strerror;
  uninitialised_siginfo := stack_bytes
|}.

(** Lua's number formatting, [LUAI_NUMFFORMAT] = ["%.14g"]: at most 14
    significant digits (the exact value rounded to nearest, ties to even),
    exponent notation when the decimal exponent is below -4 or at least 14,
    trailing zeros dropped. *)
Fixpoint strip_zeros_rev (rev_digits : list ascii) : list ascii :=
  match rev_digits with
  | "0"%char :: r => strip_zeros_rev r
  | _ => rev_digits
  end.

Definition strip_zeros (s : string) : string :=
  string_of_list_ascii (rev (strip_zeros_rev (rev (list_ascii_of_string s)))).

Definition substring (from len : nat) (s : string) : string :=
  string_of_list_ascii (take len (drop from (list_ascii_of_string s))).

Definition num_digits (z : Z) : Z := Z.of_nat (String.length (pretty z)).

(** [floor (log10 (num / den))] for positive [num] and [den] *)
Definition decimal_exponent (num den : Z) : Z :=
  if den <=? num then num_digits (num / den) - 1
  else
    let k := num_digits (den / num) in
    if den <=? num * 10 ^ (k - 1) then - (k - 1) else - k.

Definition round_half_even (num den : Z) : Z :=
  let q := num / den in
  let r := num mod den in
  if (den <? 2 * r) || ((den =? 2 * r) && Z.odd q) then q + 1 else q.

Definition format_exponent (x : Z) : string :=
  let a := pretty (Z.abs x) in
  (if x <? 0 then "-" else "+") +:+ (if Z.abs x <? 10 then "0" +:+ a else a).

Definition format_g14_positive (num den : Z) : string :=
  let x0 := decimal_exponent num den in
  let s := 13 - x0 in
  let d0 := round_half_even (num * 10 ^ Z.max s 0) (den * 10 ^ Z.max (- s) 0) in
  let '(d, x) := if d0 =? 10 ^ 14 then (10 ^ 13, x0 + 1) else (d0, x0) in
  let ds := pretty d in
  if (x <? -4) || (14 <=? x) then
    let frac := strip_zeros (substring 1 13 ds) in
    substring 0 1 ds +:+ (if String.eqb frac "" then "" else "." +:+ frac)
      +:+ "e" +:+ format_exponent x
  else if 0 <=? x then
    let frac := strip_zeros (substring (Z.to_nat (x + 1)) 14 ds) in
    substring 0 (Z.to_nat (x + 1)) ds +:+ (if String.eqb frac "" then "" else "." +:+ frac)
  else
    "0." +:+ string_of_list_ascii (replicate (Z.to_nat (- x - 1)) "0"%char)
         +:+ strip_zeros ds.

Definition format_g14 (d : lua_Number) : string :=
  match Prim2SF d with
  | S754_zero s => if s then "-0" else "0"
  | S754_infinity s => if s then "-inf" else "inf"
  | S754_nan => "nan"
  | S754_finite s m e =>
      (if s then "-" else "") +:+
      (if 0 <=? e then format_g14_positive (Z.pos m * 2 ^ e) 1
       else format_g14_positive (Z.pos m) (2 ^ (- e)))
  end.

(** [tostringbuff] of Lua 5.3 and later: a float that prints like an
    integer gets [".0"] appended. *)
Fixpoint looks_like_int (s : string) : bool :=
  match s with
  | EmptyString => true
  | String c s' =>
      (bool_decide (c = "-"%char) || bool_decide (is_Some (digit_value c)))
      && looks_like_int s'
  end.

Definition sample_Number2str (d : lua_Number) : string :=
  let s := format_g14 d in
  if looks_like_int s then s +:+ ".0" else s.

(** Of Lua's numerals the sample reads the decimal integers. *)
Definition sample_str2number (s : string) : option lua_Number :=
  Z2double <$> decimal_value s.

#[export] Instance lua_conv : LuaConv := {|
  lua_Number2str := sample_Number2str;
  lua_str2number := sample_str2number
|}.

(** A server with three variables, a validation request (transaction 7, a
    new value for the temperature) and a print request (transaction 42, the
    label, to be written to descriptor 5). *)
Definition sample_server : server_state :=
  mkServer false
    {[ "temperature" := 1; "label" := 2; "offset" := 3 ]}
    {[ 1 := uint16_object 21; 2 := string_object "boiler"; 3 := int16_object (-4) ]}
    {[ 7 := (1, uint16_object 30) ]}
    {[ 42 := (2, 5) ]}.

(** A validate signal arrives, then the wait is interrupted, then a print
    signal arrives. *)
Definition sample_platform : platform_state :=
  mkPlatform ∅
    [Signal (rt_min + 8) 7; Interrupted; Signal (rt_min + 9) 42]
    (mkSiginfo 12345).

(** The process before the library is loaded; Lua's io library has
    registered the metatable of file handles. *)
Definition boot : World :=
  mkWorld None sample_server sample_platform [] ∅ ∅ {[ LUA_FILEHANDLE ]} [].

(** The process once [require] has run [luaopen_libluavars]. *)
Definition loaded : World :=
  after (lua_call luaopen_libluavars []) boot.

(** The process once the script has opened the print session of
    transaction 42; the session object is the userdata at address 0. *)
Definition printing : World :=
  after (lua_call var_open_print_session [LNumber (Z2double 42)]) loaded.

(** The process once the script has closed that session. *)
Definition printed : World :=
  after (lua_call var_close_print_session [LUserdata 0]) printing.

(** The session object the script holds in [printing] *)
Definition session_42 : LuaPrintSession :=
  mkSession (mkStream (Some (stream_base + 5)) (Some fn_var_close_print_session))
            5 42 2.

(** The same session after the server has dropped the print request on its
    side: the server-side close will fail. *)
Definition orphaned : World :=
  set_server (with_prints ∅ (server printing)) printing.

(** The process once the library has been unloaded. *)
Definition unloaded : World :=
  after (lua_call global_unload []) loaded.

(** The same process on the library that goes on answering: loaded, and
    then unloaded. *)
Definition answering_loaded : World (vs := answering_lib) :=
  after (vs := answering_lib) (lua_call luaopen_libluavars [])
        (mkWorld (vs := answering_lib) None sample_server sample_platform
                 [] ∅ ∅ {[ LUA_FILEHANDLE ]} []).

Definition answering_unloaded : World (vs := answering_lib) :=
  after (vs := answering_lib) (lua_call global_unload []) answering_loaded.

(** A process whose server holds a print request (transaction 43) on a
    descriptor that is not open: [fdopen] will fail. *)
Definition stale : World :=
  set_server (with_prints {[ 43 := (2, -1) ]} (server loaded)) loaded.

(** A process whose server holds a validation request (transaction 9) of a
    type the binding does not name. *)
Definition odd : World :=
  set_server (with_validations {[ 9 := (1, no_object) ]} (server loaded)) loaded.

(** The stack of a call of [var.set] with handle 1 and the text 25 *)
Definition setting : World :=
  set_stack [LNumber 1; LString "25"] loaded.

(** A process whose next wait is interrupted. *)
Definition interrupted : World :=
  mkWorld None sample_server (mkPlatform ∅ [Interrupted] (mkSiginfo 12345))
          [] ∅ ∅ {[ LUA_FILEHANDLE ]} [].

End Sample.

(** ** Vocabulary of the properties *)

Section Vocabulary.
Context {vs : VarServerLib} {pl : Platform} {lc : LuaConv}.

(** The five signals of the specification *)
Definition wait_set : sigset_t :=
  {[ SIGRTMIN + 5; SIG_VAR_MODIFIED; SIG_VAR_CALC; SIG_VAR_VALIDATE; SIG_VAR_PRINT ]}.

(** The platform once [sigprocmask] has returned *)
Definition masked (w : World) : Plat :=
  (sigprocmask SIG_BLOCK wait_set (platform w)).2.

Definition wait_trace : list Event :=
  [EvSigprocmask SIG_BLOCK wait_set; EvSigwaitinfo wait_set].

Definition get_value (var : VarObject) : list LuaValue :=
  match var_type var with
  | VARTYPE_STR => [LString (val_str (var_val var))]
  | VARTYPE_UINT16 => [LNumber (Z2double (val_ui (var_val var)))]
  | VARTYPE_UINT32 => [LNumber (Z2double (val_ul (var_val var)))]
  | VARTYPE_FLOAT => [LNumber (val_f (var_val var))]
  | _ => []
  end.

Definition neither_string_nor_number (v : LuaValue) : Prop :=
  match v with
  | LString _ => False
  | LNumber _ => False
  | _ => True
  end.

(** The value [var.validate_start] returns after the handle *)
Definition validation_value (var : VarObject) : list LuaValue :=
  match var_type var with
  | VARTYPE_STR => [LString (val_str (var_val var))]
  | VARTYPE_INT16 => [LNumber (Z2double (val_i (var_val var)))]
  | VARTYPE_UINT16 => [LNumber (Z2double (val_ui (var_val var)))]
  | VARTYPE_INT32 => [LNumber (Z2double (val_l (var_val var)))]
  | VARTYPE_UINT32 => [LNumber (Z2double (val_ul (var_val var)))]
  | VARTYPE_INT64 => [LNumber (Z2double (val_ll (var_val var)))]
  | VARTYPE_UINT64 => [LNumber (Z2double (val_ull (var_val var)))]
  | VARTYPE_FLOAT => [LNumber (val_f (var_val var))]
  | VARTYPE_unnamed _ => []
  end.

(** The object at [p] is a print session of the file handle type. *)
Definition is_session (w : World) (p : nat) (s : LuaPrintSession) : Prop :=
  lua_heap w !! p = Some (mkUserdata (Some LUA_FILEHANDLE) s)
  ∧ LUA_FILEHANDLE ∈ lua_registry w.

(** The globals [setup_globals] leaves *)
Definition with_constants (g : gmap string LuaValue) : gmap string LuaValue :=
  <["NOTIFY_PRINT" := LNumber (Z2double NOTIFY_PRINT)]>
  (<["NOTIFY_VALIDATE" := LNumber (Z2double NOTIFY_VALIDATE)]>
  (<["NOTIFY_CALC" := LNumber (Z2double NOTIFY_CALC)]>
  (<["NOTIFY_MODIFIED" := LNumber (Z2double NOTIFY_MODIFIED)]>
  (<["SIG_VAR_PRINT" := LNumber (Z2double SIG_VAR_PRINT)]>
  (<["SIG_VAR_VALIDATE" := LNumber (Z2double SIG_VAR_VALIDATE)]>
  (<["SIG_VAR_CALC" := LNumber (Z2double SIG_VAR_CALC)]>
  (<["SIG_VAR_MODIFIED" := LNumber (Z2double SIG_VAR_MODIFIED)]> g))))))).

(** Some stream is released before the server is told that some print
    session is finished. *)
Definition released_before_informed (tr : list Event) : Prop :=
  ∃ (i j : nat) fp h id fd,
    (i < j)%nat ∧ tr !! i = Some (EvFclose fp)
    ∧ tr !! j = Some (EvClosePrintSession h id fd).

(** [var.find] and then [var.get] of what it returned *)
Definition find_then_get (name : string) : M (list LuaValue) :=
  found ← lua_call var_find [LString name];
  lua_call var_get found.

(** The call is made on the connection [h]: it is not [VARSERVER_Open], and
    where it goes to the server library it passes [h]. *)
Definition on_connection (h : VARSERVER_HANDLE) (ev : Event) : Prop :=
  match ev with
  | EvOpen => False
  | EvClose h' | EvFindByName h' _ | EvGet h' _ _ | EvGetType h' _
  | EvSetStr h' _ _ _ | EvNotify h' _ _ | EvGetValidationRequest h' _
  | EvSendValidationResponse h' _ _ | EvOpenPrintSession h' _
  | EvClosePrintSession h' _ _ => h' = h
  | EvFdopen _ _ | EvFclose _ | EvSigprocmask _ _ | EvSigwaitinfo _ => True
  end.

(** Since the trace was [t0], the handle has been [h] and every call was
    made on the connection [h]. *)
Definition on_connection_since (h : VARSERVER_HANDLE) (t0 : list Event) (w : World)
    : Prop :=
  hVarServer w = h ∧ ∃ evs, trace w = t0 ++ evs ∧ Forall (on_connection h) evs.

(** A computation preserves a property of the world, whether it returns or
    raises. *)
Definition preserves (P : World → Prop) {A} (m : M A) : Prop :=
  ∀ w, P w → match final (m w) with Some w' => P w' | None => True end.

(** The C function behind each entry of [vars_lib] *)
Definition c_function (fn : lua_CFunction) : lua_State_ptr → M Z :=
  match fn with
  | fn_var_get => var_get
  | fn_var_find => var_find
  | fn_var_set => var_set
  | fn_var_notify => var_notify
  | fn_var_wait => var_wait
  | fn_var_validate_start => var_validate_start
  | fn_var_validate_end => var_validate_end
  | fn_var_open_print_session => var_open_print_session
  | fn_var_close_print_session => var_close_print_session
  | fn_global_unload => global_unload
  end.

End Vocabulary.

(** ** Vocabulary of the further properties *)

Section FurtherVocabulary.
Context {vs : VarServerLib} {pl : Platform} {lc : LuaConv}.

(** The argument is absent, or neither a string nor a number. *)
Definition no_text (v : option LuaValue) : Prop :=
  match v with
  | Some (LString _) => False
  | Some (LNumber _) => False
  | _ => True
  end.

(** The argument is absent, or neither a number nor a string that reads as
    one. *)
Definition no_number (v : option LuaValue) : Prop :=
  match v with
  | Some (LNumber _) => False
  | Some (LString s) => lua_str2number s = None
  | _ => True
  end.

(** The metatable [luaL_setmetatable] finds for file handles *)
Definition file_metatable (w : World) : option string :=
  if bool_decide (LUA_FILEHANDLE ∈ lua_registry w) then Some LUA_FILEHANDLE else None.

(** The session object [var.open_print_session] builds *)
Definition new_session (id fd : Z) (hVar : VAR_HANDLE) (fp : FILE_ptr) : LuaPrintSession :=
  mkSession (mkStream fp (Some fn_var_close_print_session)) fd id hVar.

(** [var.open_print_session] and then [var.close_print_session] of the
    session it returned *)
Definition open_then_close (n : lua_Number) : M (list LuaValue) :=
  opened ← lua_call var_open_print_session [LNumber n];
  lua_call var_close_print_session (take 1 opened).

(** [var.find] and then [var.set] with the handle it returned *)
Definition find_then_set (name value : string) : M (list LuaValue) :=
  found ← lua_call var_find [LString name];
  lua_call var_set (found ++ [LString value]).

(** [var.wait] and then [var.validate_start] with the payload it returned *)
Definition wait_then_validate_start : M (list LuaValue) :=
  event ← lua_call var_wait [];
  lua_call var_validate_start (drop 1 event).

(** The names [setup_globals] defines, with their values *)
Definition constants : list (string * Z) :=
  [ ("SIG_VAR_MODIFIED", SIG_VAR_MODIFIED);
    ("SIG_VAR_CALC", SIG_VAR_CALC);
    ("SIG_VAR_VALIDATE", SIG_VAR_VALIDATE);
    ("SIG_VAR_PRINT", SIG_VAR_PRINT);
    ("NOTIFY_MODIFIED", NOTIFY_MODIFIED);
    ("NOTIFY_CALC", NOTIFY_CALC);
    ("NOTIFY_VALIDATE", NOTIFY_VALIDATE);
    ("NOTIFY_PRINT", NOTIFY_PRINT) ].

(** A computation keeps a relation between the world it starts in and the
    world it leaves, whether it returns or raises. *)
Definition keeps (R : World → World → Prop) {A} (m : M A) : Prop :=
  ∀ w, match final (m w) with Some w' => R w w' | None => True end.

(** The handle, the globals and the registry are as they were. *)
Definition same_environment (w w' : World) : Prop :=
  hVarServer w' = hVarServer w
  ∧ lua_globals w' = lua_globals w
  ∧ lua_registry w' = lua_registry w.

(** The userdata heap is as it was. *)
Definition same_heap (w w' : World) : Prop :=
  lua_heap w' = lua_heap w.

(** What the frame reasoning needs of a relation: it is a preorder that
    ignores the stack, the server, the C library and the trace. *)
Class Frame (R : World → World → Prop) : Prop := {
  frame_refl : ∀ w, R w w;
  frame_trans : ∀ w1 w2 w3, R w1 w2 → R w2 w3 → R w1 w3;
  frame_stack : ∀ s w, R w (set_stack s w);
  frame_server : ∀ s w, R w (set_server s w);
  frame_platform : ∀ p w, R w (set_platform p w);
  frame_log : ∀ ev w, R w (log ev w)
}.

(** A frame that ignores the heap as well *)
Class HeapFrame (R : World → World → Prop) : Prop := {
  frame_heap : ∀ m w, R w (set_heap m w)
}.

(** The computation returned. *)
Definition came_back {A} (o : Outcome A) : bool :=
  match o with Done _ _ => true | _ => false end.

End FurtherVocabulary.

(** ** Reasoning about runs *)

Section Runs.
Context {vs : VarServerLib} {pl : Platform} {lc : LuaConv}.

Lemma top_values (args rs : list LuaValue) (n : Z) :
  Z.to_nat n = length rs → top n (args ++ rs) = rs.
Proof.
  intros E. unfold top. rewrite E, length_app, Nat.add_sub. apply drop_app_length.
Qed.

Lemma top_nothing (s : list LuaValue) : top 0 s = [].
Proof. unfold top. cbn. rewrite Nat.sub_0_r. apply drop_all. Qed.

Lemma snoc_snoc {A} (s l : list A) (a : A) : (s ++ l) ++ [a] = s ++ (l ++ [a]).
Proof. symmetry. apply app_assoc. Qed.

Lemma world_eq (w1 w2 : World) :
  hVarServer w1 = hVarServer w2 → server w1 = server w2 →
  platform w1 = platform w2 → lua_stack w1 = lua_stack w2 →
  lua_heap w1 = lua_heap w2 → lua_globals w1 = lua_globals w2 →
  lua_registry w1 = lua_registry w2 → trace w1 = trace w2 →
  w1 = w2.
Proof. destruct w1, w2. cbn. intros. subst. reflexivity. Qed.

Lemma done_eq {A} (a a' : A) (w w' : World) :
  a = a' → w = w' → Done a w = Done a' w'.
Proof. intros -> ->. reflexivity. Qed.

Lemma calls_app {A} (w : World) (a : A) (w' : World) (evs : list Event) :
  trace w' = trace w ++ evs → calls w (Done a w') = evs.
Proof. intros E. unfold calls. cbn. rewrite E. apply drop_app_length. Qed.

End Runs.

(** Unfolding of the monad and of the world's setters *)
Ltac unfold_monad :=
  unfold mbind, M_bind, mret, M_ret, modify, gets, undefined, lua_error,
    call_server, call_libc, call_libc_partial, call_blocking in *.

Ltac tests :=
  repeat first
    [ rewrite bool_decide_eq_true_2 by (first [reflexivity | assumption | done])
    | rewrite bool_decide_eq_false_2
        by (first [assumption | done | intros ?; congruence]) ].

Ltac step := cbn -[app top]; tests; cbn -[app top].

Ltac same_world :=
  apply world_eq; cbn -[app]; rewrite ?snoc_snoc;
  first [reflexivity | assumption | symmetry; assumption].

Ltac finish :=
  rewrite ?snoc_snoc; rewrite ?top_values by reflexivity; rewrite ?top_nothing;
  apply done_eq; [reflexivity | same_world].

(** ** The event wait *)

Section Wait.
Context {vs : VarServerLib} {pl : Platform} {lc : LuaConv}.

Lemma wait_mask :
  sigaddset (sigaddset (sigaddset (sigaddset (sigaddset sigemptyset
    (SIGRTMIN + 5)) SIG_VAR_MODIFIED) SIG_VAR_CALC) SIG_VAR_PRINT) SIG_VAR_VALIDATE
  = wait_set.
Proof.
  unfold sigaddset, sigemptyset, wait_set. apply set_eq. intros s.
  rewrite !elem_of_union, !elem_of_singleton, elem_of_empty. tauto.
Qed.

Lemma var_wait_returns (w : World) (args : list LuaValue) sig info p :
  sigwaitinfo wait_set (uninitialised_siginfo (masked w)) (masked w) = Some ((sig, info), p) →
  lua_call var_wait args w =
    Done [LNumber (Z2double sig); LNumber (Z2double (sival_int info))]
         (mkWorld (hVarServer w) (server w) p [] (lua_heap w) (lua_globals w)
                  (lua_registry w) (trace w ++ wait_trace)).
Proof.
  intros Hwait. unfold lua_call, var_wait. cbn zeta. rewrite wait_mask.
  unfold masked in Hwait. unfold_monad. step. rewrite Hwait. step. finish.
Qed.

Lemma var_wait_blocks (w : World) (args : list LuaValue) :
  sigwaitinfo wait_set (uninitialised_siginfo (masked w)) (masked w) = None →
  lua_call var_wait args w = Blocked.
Proof.
  intros Hwait. unfold lua_call, var_wait. cbn zeta. rewrite wait_mask.
  unfold masked in Hwait. unfold_monad. step. rewrite Hwait. reflexivity.
Qed.

(** C8: every call of [var.wait] waits on the same set, the timer signal
    [SIGRTMIN+5] and the modified, calc, validate and print signals, whatever
    the arguments and the state of the process.  It waits with [sigwaitinfo],
    which takes no timeout: the call does not come back while no signal of
    the set arrives.  When one is delivered the call returns its number and
    the integer of its [sigval]. *)
Theorem var_wait_fixed_signal_set (w : World) (args : list LuaValue) :
  (∀ s, s ∈ wait_set ↔
        s = SIGRTMIN + 5 ∨ s = SIG_VAR_MODIFIED ∨ s = SIG_VAR_CALC
        ∨ s = SIG_VAR_VALIDATE ∨ s = SIG_VAR_PRINT)
  ∧ (∀ sig info p,
       sigwaitinfo wait_set (uninitialised_siginfo (masked w)) (masked w)
         = Some ((sig, info), p) →
       returned (lua_call var_wait args w)
         = Some [LNumber (Z2double sig); LNumber (Z2double (sival_int info))]
       ∧ calls w (lua_call var_wait args w)
         = [EvSigprocmask SIG_BLOCK wait_set; EvSigwaitinfo wait_set])
  ∧ (sigwaitinfo wait_set (uninitialised_siginfo (masked w)) (masked w) = None →
     lua_call var_wait args w = Blocked).
Proof.
  split; [| split].
  - intros s. unfold wait_set.
    rewrite !elem_of_union, !elem_of_singleton. tauto.
  - intros sig info p Hwait. rewrite (var_wait_returns _ _ _ _ _ Hwait).
    split; [reflexivity |]. apply calls_app. reflexivity.
  - apply var_wait_blocks.
Qed.

(** C10: [var.wait] never returns the absent value.  Whenever the wait
    comes back the call returns exactly two numbers, also when the wait
    failed: then they are -1 and whatever integer the signal information
    holds. *)
Theorem var_wait_two_numbers (w : World) (args : list LuaValue) :
  (lua_call var_wait args w = Blocked
   ∨ ∃ a b w', lua_call var_wait args w = Done [LNumber a; LNumber b] w')
  ∧ (∀ info p,
       sigwaitinfo wait_set (uninitialised_siginfo (masked w)) (masked w)
         = Some ((-1, info), p) →
       returned (lua_call var_wait args w)
         = Some [LNumber (Z2double (-1)); LNumber (Z2double (sival_int info))]).
Proof.
  split.
  - destruct (sigwaitinfo wait_set (uninitialised_siginfo (masked w)) (masked w))
      as [[[sig info] p] |] eqn:Hwait.
    + right. eexists _, _, _. apply (var_wait_returns _ _ _ _ _ Hwait).
    + left. apply var_wait_blocks, Hwait.
  - intros info p Hwait. rewrite (var_wait_returns _ _ _ _ _ Hwait). reflexivity.
Qed.

End Wait.

(** ** Variable access *)

Section Access.
Context {vs : VarServerLib} {pl : Platform} {lc : LuaConv}.

Lemma var_get_fetched (w : World) name rest hVar s1 var s2 :
  VAR_FindByName (hVarServer w) name (server w) = Some (hVar, s1) →
  hVar ≠ VAR_INVALID →
  VAR_Get (hVarServer w) hVar BUFSIZ s1 = Some ((EOK, var), s2) →
  lua_call var_get (LString name :: rest) w =
    Done (get_value var)
      (mkWorld (hVarServer w) s2 (platform w) [] (lua_heap w) (lua_globals w)
         (lua_registry w)
         (trace w ++ [EvFindByName (hVarServer w) name; EvGet (hVarServer w) hVar BUFSIZ])).
Proof.
  intros Hfind Hvalid Hget.
  unfold lua_call, var_get, luaL_checklstring, deref. unfold_monad. step.
  rewrite Hfind. step. rewrite Hget. step.
  unfold get_value. destruct (var_type var); step; finish.
Qed.

Lemma var_get_unknown (w : World) name rest s1 :
  VAR_FindByName (hVarServer w) name (server w) = Some (VAR_INVALID, s1) →
  lua_call var_get (LString name :: rest) w =
    Done []
      (mkWorld (hVarServer w) s1 (platform w) [] (lua_heap w) (lua_globals w)
         (lua_registry w) (trace w ++ [EvFindByName (hVarServer w) name])).
Proof.
  intros Hfind.
  unfold lua_call, var_get, luaL_checklstring, deref. unfold_monad. step.
  rewrite Hfind. step. finish.
Qed.

Lemma var_get_number (w : World) d rest :
  lua_call var_get (LNumber d :: rest) w
  = lua_call var_get (LString (lua_Number2str d) :: rest) w.
Proof.
  unfold lua_call, var_get, luaL_checklstring, deref. unfold_monad. step.
  reflexivity.
Qed.

Lemma var_find_found (w : World) name rest hVar s1 :
  VAR_FindByName (hVarServer w) name (server w) = Some (hVar, s1) →
  hVar ≠ VAR_INVALID →
  lua_call var_find (LString name :: rest) w =
    Done [LNumber (Z2double hVar)]
      (mkWorld (hVarServer w) s1 (platform w) [] (lua_heap w) (lua_globals w)
         (lua_registry w) (trace w ++ [EvFindByName (hVarServer w) name])).
Proof.
  intros Hfind Hvalid.
  unfold lua_call, var_find, luaL_checklstring, deref. unfold_monad. step.
  rewrite Hfind. step. finish.
Qed.

Lemma var_set_unknown_name (w : World) name value rest s1 :
  VAR_FindByName (hVarServer w) name (server w) = Some (VAR_INVALID, s1) →
  lua_call var_set (LString name :: LString value :: rest) w =
    Done []
      (mkWorld (hVarServer w) s1 (platform w) [] (lua_heap w) (lua_globals w)
         (lua_registry w) (trace w ++ [EvFindByName (hVarServer w) name])).
Proof.
  intros Hfind.
  unfold lua_call, var_set, luaL_typename, luaL_checklstring, deref.
  unfold_monad. step. rewrite Hfind. step. finish.
Qed.

Lemma var_set_invalid_handle (w : World) n value rest :
  double_to_uint32 n = Some VAR_INVALID →
  lua_call var_set (LNumber n :: LString value :: rest) w =
    Done []
      (mkWorld (hVarServer w) (server w) (platform w) [] (lua_heap w) (lua_globals w)
         (lua_registry w) (trace w)).
Proof.
  intros Hcast.
  unfold lua_call, var_set, luaL_typename, luaL_checklstring, luaL_checknumber,
    to_uint32, deref.
  unfold_monad. step. rewrite Hcast. step. finish.
Qed.

Lemma var_set_no_reference (w : World) ref value rest :
  neither_string_nor_number ref →
  lua_call var_set (ref :: LString value :: rest) w =
    Done []
      (mkWorld (hVarServer w) (server w) (platform w) [] (lua_heap w) (lua_globals w)
         (lua_registry w) (trace w)).
Proof.
  intros Href.
  unfold lua_call, var_set, luaL_typename, luaL_checklstring, deref.
  unfold_monad. destruct ref; try contradiction; step; finish.
Qed.

Lemma var_set_name_no_type (w : World) name value rest hVar s1 rc type s2 :
  VAR_FindByName (hVarServer w) name (server w) = Some (hVar, s1) →
  hVar ≠ VAR_INVALID →
  VAR_GetType (hVarServer w) hVar s1 = Some ((rc, type), s2) →
  rc ≠ EOK →
  lua_call var_set (LString name :: LString value :: rest) w =
    Done []
      (mkWorld (hVarServer w) s2 (platform w) [] (lua_heap w) (lua_globals w)
         (lua_registry w)
         (trace w ++ [EvFindByName (hVarServer w) name; EvGetType (hVarServer w) hVar])).
Proof.
  intros Hfind Hvalid Htype Hrc.
  unfold lua_call, var_set, luaL_typename, luaL_checklstring, deref.
  unfold_monad. step. rewrite Hfind. step. rewrite Htype. step. finish.
Qed.

Lemma var_set_handle_no_type (w : World) n value rest hVar rc type s2 :
  double_to_uint32 n = Some hVar →
  hVar ≠ VAR_INVALID →
  VAR_GetType (hVarServer w) hVar (server w) = Some ((rc, type), s2) →
  rc ≠ EOK →
  lua_call var_set (LNumber n :: LString value :: rest) w =
    Done []
      (mkWorld (hVarServer w) s2 (platform w) [] (lua_heap w) (lua_globals w)
         (lua_registry w) (trace w ++ [EvGetType (hVarServer w) hVar])).
Proof.
  intros Hcast Hvalid Htype Hrc.
  unfold lua_call, var_set, luaL_typename, luaL_checklstring, luaL_checknumber,
    to_uint32, deref.
  unfold_monad. step. rewrite Hcast. step. rewrite Htype. step. finish.
Qed.

Lemma var_set_handle_done (w : World) n value rest hVar type s2 rc s3 :
  double_to_uint32 n = Some hVar →
  hVar ≠ VAR_INVALID →
  VAR_GetType (hVarServer w) hVar (server w) = Some ((EOK, type), s2) →
  VAR_SetStr (hVarServer w) hVar type value s2 = Some (rc, s3) →
  lua_call var_set (LNumber n :: LString value :: rest) w =
    Done (if bool_decide (rc = EOK) then [LNumber (Z2double 1)] else [])
      (mkWorld (hVarServer w) s3 (platform w) [] (lua_heap w) (lua_globals w)
         (lua_registry w)
         (trace w ++ [EvGetType (hVarServer w) hVar;
                      EvSetStr (hVarServer w) hVar type value])).
Proof.
  intros Hcast Hvalid Htype Hset.
  unfold lua_call, var_set, luaL_typename, luaL_checklstring, luaL_checknumber,
    to_uint32, deref.
  unfold_monad. step. rewrite Hcast. step. rewrite Htype. step. rewrite Hset. step.
  case_bool_decide; step; finish.
Qed.

Lemma var_set_number_value (w : World) ref d :
  lua_call var_set [ref; LNumber d] w
  = lua_call var_set [ref; LString (lua_Number2str d)] w.
Proof.
  unfold lua_call, var_set, luaL_typename, luaL_checklstring, luaL_checknumber,
    to_uint32, deref.
  unfold_monad. destruct ref; cbn -[app top].
  - reflexivity.
  - destruct (double_to_uint32 n); reflexivity.
  - destruct (VAR_FindByName (hVarServer w) s (server w)) as [[hVar s1] |];
      reflexivity.
  - reflexivity.
  - reflexivity.
Qed.

(** C4, as the code has it: [var.find] returns the handle the server
    resolves the name to, and [var.get] of the name asks the server for the
    value under that same handle.  [var.get] takes a name only: given a
    number, such as the handle [var.find] returned, it converts the number
    to its text and looks the text up as a name. *)
Theorem var_get_uses_found_handle (w : World) name hVar s1 var s2 :
  VAR_FindByName (hVarServer w) name (server w) = Some (hVar, s1) →
  hVar ≠ VAR_INVALID →
  VAR_Get (hVarServer w) hVar BUFSIZ s1 = Some ((EOK, var), s2) →
  returned (lua_call var_find [LString name] w) = Some [LNumber (Z2double hVar)]
  ∧ calls w (lua_call var_get [LString name] w)
    = [EvFindByName (hVarServer w) name; EvGet (hVarServer w) hVar BUFSIZ]
  ∧ returned (lua_call var_get [LString name] w) = Some (get_value var)
  ∧ ∀ d w', lua_call var_get [LNumber d] w'
            = lua_call var_get [LString (lua_Number2str d)] w'.
Proof.
  intros Hfind Hvalid Hget.
  rewrite (var_find_found _ _ _ _ _ Hfind Hvalid).
  rewrite (var_get_fetched _ _ _ _ _ _ _ Hfind Hvalid Hget).
  split; [reflexivity |]. split; [apply calls_app; reflexivity |].
  split; [reflexivity |]. intros d w'. apply var_get_number.
Qed.

(** C5: when the reference does not resolve to a valid handle (an unknown
    name, the invalid handle, a reference that is neither a name nor a
    handle) or the type query fails, [var.set] returns no value, which the
    caller reads as [nil], and [VAR_SetStr] is not called.  The value is a
    string; a number given in its place is converted to its text first. *)
Theorem var_set_fails_without_setting (w : World) (value : string) :
  (∀ name s1,
     VAR_FindByName (hVarServer w) name (server w) = Some (VAR_INVALID, s1) →
     caller_reads 1 (lua_call var_set [LString name; LString value] w) = Some [LNil]
     ∧ calls w (lua_call var_set [LString name; LString value] w)
       = [EvFindByName (hVarServer w) name])
  ∧ (∀ n,
       double_to_uint32 n = Some VAR_INVALID →
       caller_reads 1 (lua_call var_set [LNumber n; LString value] w) = Some [LNil]
       ∧ calls w (lua_call var_set [LNumber n; LString value] w) = [])
  ∧ (∀ ref,
       neither_string_nor_number ref →
       caller_reads 1 (lua_call var_set [ref; LString value] w) = Some [LNil]
       ∧ calls w (lua_call var_set [ref; LString value] w) = [])
  ∧ (∀ name hVar s1 rc type s2,
       VAR_FindByName (hVarServer w) name (server w) = Some (hVar, s1) →
       hVar ≠ VAR_INVALID →
       VAR_GetType (hVarServer w) hVar s1 = Some ((rc, type), s2) →
       rc ≠ EOK →
       caller_reads 1 (lua_call var_set [LString name; LString value] w) = Some [LNil]
       ∧ calls w (lua_call var_set [LString name; LString value] w)
         = [EvFindByName (hVarServer w) name; EvGetType (hVarServer w) hVar])
  ∧ (∀ n hVar rc type s2,
       double_to_uint32 n = Some hVar →
       hVar ≠ VAR_INVALID →
       VAR_GetType (hVarServer w) hVar (server w) = Some ((rc, type), s2) →
       rc ≠ EOK →
       caller_reads 1 (lua_call var_set [LNumber n; LString value] w) = Some [LNil]
       ∧ calls w (lua_call var_set [LNumber n; LString value] w)
         = [EvGetType (hVarServer w) hVar])
  ∧ (∀ ref d,
       lua_call var_set [ref; LNumber d] w
       = lua_call var_set [ref; LString (lua_Number2str d)] w).
Proof.
  split; [| split; [| split; [| split; [| split]]]].
  - intros name s1 Hfind.
    rewrite (var_set_unknown_name _ _ _ _ _ Hfind).
    split; [reflexivity | apply calls_app; reflexivity].
  - intros n Hcast.
    rewrite (var_set_invalid_handle _ _ _ _ Hcast).
    split; [reflexivity |]. apply calls_app. cbn. symmetry. apply app_nil_r.
  - intros ref Href.
    rewrite (var_set_no_reference _ _ _ _ Href).
    split; [reflexivity |]. apply calls_app. cbn. symmetry. apply app_nil_r.
  - intros name hVar s1 rc type s2 Hfind Hvalid Htype Hrc.
    rewrite (var_set_name_no_type _ _ _ _ _ _ _ _ _ Hfind Hvalid Htype Hrc).
    split; [reflexivity | apply calls_app; reflexivity].
  - intros n hVar rc type s2 Hcast Hvalid Htype Hrc.
    rewrite (var_set_handle_no_type _ _ _ _ _ _ _ _ Hcast Hvalid Htype Hrc).
    split; [reflexivity | apply calls_app; reflexivity].
  - intros ref d. apply var_set_number_value.
Qed.

End Access.

(** ** Validation *)

Section Validation.
Context {vs : VarServerLib} {pl : Platform} {lc : LuaConv}.

Lemma var_validate_start_not_pending (w : World) n rest id rc hVar var s :
  double_to_uint32 n = Some id →
  VAR_GetValidationRequest (hVarServer w) id BUFSIZ (server w)
    = Some ((rc, hVar, var), s) →
  rc ≠ EOK →
  lua_call var_validate_start (LNumber n :: rest) w =
    Done []
      (mkWorld (hVarServer w) s (platform w) [] (lua_heap w) (lua_globals w)
         (lua_registry w) (trace w ++ [EvGetValidationRequest (hVarServer w) id])).
Proof.
  intros Hcast Hreq Hrc.
  unfold lua_call, var_validate_start, luaL_checknumber, to_uint32, deref.
  unfold_monad. step. rewrite Hcast. step. rewrite Hreq. step. finish.
Qed.

Lemma var_validate_start_pending (w : World) n rest id hVar var s :
  double_to_uint32 n = Some id →
  VAR_GetValidationRequest (hVarServer w) id BUFSIZ (server w)
    = Some ((EOK, hVar, var), s) →
  lua_call var_validate_start (LNumber n :: rest) w =
    Done (match validation_value var with
          | [] => []
          | v => LNumber (Z2double hVar) :: v
          end)
      (mkWorld (hVarServer w) s (platform w) [] (lua_heap w) (lua_globals w)
         (lua_registry w) (trace w ++ [EvGetValidationRequest (hVarServer w) id])).
Proof.
  intros Hcast Hreq.
  unfold lua_call, var_validate_start, luaL_checknumber, to_uint32, deref.
  unfold_monad. step. rewrite Hcast. step. rewrite Hreq. step.
  unfold validation_value. destruct (var_type var); step; finish.
Qed.

(** C3: for a transaction the library does not report as pending (its
    status is not [EOK]), [var.validate_start] returns no value, so the
    caller reads [nil] for the handle and for the value; the call comes
    back, after the one request to the library and no wait. *)
Theorem var_validate_start_not_found (w : World) n id rc hVar var s :
  double_to_uint32 n = Some id →
  VAR_GetValidationRequest (hVarServer w) id BUFSIZ (server w)
    = Some ((rc, hVar, var), s) →
  rc ≠ EOK →
  returned (lua_call var_validate_start [LNumber n] w) = Some []
  ∧ caller_reads 2 (lua_call var_validate_start [LNumber n] w) = Some [LNil; LNil]
  ∧ calls w (lua_call var_validate_start [LNumber n] w)
    = [EvGetValidationRequest (hVarServer w) id]
  ∧ lua_call var_validate_start [LNumber n] w ≠ Blocked.
Proof.
  intros Hcast Hreq Hrc.
  rewrite (var_validate_start_not_pending _ _ _ _ _ _ _ _ Hcast Hreq Hrc).
  split; [reflexivity |]. split; [reflexivity |].
  split; [apply calls_app; reflexivity | discriminate].
Qed.

(** C9: after a successful fetch [var.get] returns the value of a string,
    uint16, uint32 or float variable, and no value (read as [nil]) for a
    variable of any other type, int16, int32, int64 and uint64 among them;
    [var.validate_start] returns the value for each of the eight types. *)
Theorem var_get_four_kinds (w : World) name hVar s1 var s2 :
  VAR_FindByName (hVarServer w) name (server w) = Some (hVar, s1) →
  hVar ≠ VAR_INVALID →
  VAR_Get (hVarServer w) hVar BUFSIZ s1 = Some ((EOK, var), s2) →
  (var_type var = VARTYPE_STR →
   returned (lua_call var_get [LString name] w)
     = Some [LString (val_str (var_val var))])
  ∧ (var_type var = VARTYPE_UINT16 →
     returned (lua_call var_get [LString name] w)
       = Some [LNumber (Z2double (val_ui (var_val var)))])
  ∧ (var_type var = VARTYPE_UINT32 →
     returned (lua_call var_get [LString name] w)
       = Some [LNumber (Z2double (val_ul (var_val var)))])
  ∧ (var_type var = VARTYPE_FLOAT →
     returned (lua_call var_get [LString name] w)
       = Some [LNumber (val_f (var_val var))])
  ∧ (var_type var ≠ VARTYPE_STR → var_type var ≠ VARTYPE_UINT16 →
     var_type var ≠ VARTYPE_UINT32 → var_type var ≠ VARTYPE_FLOAT →
     returned (lua_call var_get [LString name] w) = Some []
     ∧ caller_reads 1 (lua_call var_get [LString name] w) = Some [LNil])
  ∧ (∀ n id hVar' var' s,
       double_to_uint32 n = Some id →
       VAR_GetValidationRequest (hVarServer w) id BUFSIZ (server w)
         = Some ((EOK, hVar', var'), s) →
       (var_type var' = VARTYPE_INT16 →
        returned (lua_call var_validate_start [LNumber n] w)
          = Some [LNumber (Z2double hVar'); LNumber (Z2double (val_i (var_val var')))])
       ∧ (var_type var' = VARTYPE_INT32 →
          returned (lua_call var_validate_start [LNumber n] w)
            = Some [LNumber (Z2double hVar'); LNumber (Z2double (val_l (var_val var')))])
       ∧ (var_type var' = VARTYPE_INT64 →
          returned (lua_call var_validate_start [LNumber n] w)
            = Some [LNumber (Z2double hVar'); LNumber (Z2double (val_ll (var_val var')))])
       ∧ (var_type var' = VARTYPE_UINT64 →
          returned (lua_call var_validate_start [LNumber n] w)
            = Some [LNumber (Z2double hVar'); LNumber (Z2double (val_ull (var_val var')))])
       ∧ (var_type var' = VARTYPE_STR →
          returned (lua_call var_validate_start [LNumber n] w)
            = Some [LNumber (Z2double hVar'); LString (val_str (var_val var'))])
       ∧ (var_type var' = VARTYPE_UINT16 →
          returned (lua_call var_validate_start [LNumber n] w)
            = Some [LNumber (Z2double hVar'); LNumber (Z2double (val_ui (var_val var')))])
       ∧ (var_type var' = VARTYPE_UINT32 →
          returned (lua_call var_validate_start [LNumber n] w)
            = Some [LNumber (Z2double hVar'); LNumber (Z2double (val_ul (var_val var')))])
       ∧ (var_type var' = VARTYPE_FLOAT →
          returned (lua_call var_validate_start [LNumber n] w)
            = Some [LNumber (Z2double hVar'); LNumber (val_f (var_val var'))])).
Proof.
  intros Hfind Hvalid Hget.
  rewrite (var_get_fetched _ _ _ _ _ _ _ Hfind Hvalid Hget).
  unfold get_value.
  split; [intros ->; reflexivity |]. split; [intros ->; reflexivity |].
  split; [intros ->; reflexivity |]. split; [intros ->; reflexivity |].
  split.
  - intros Hstr Hui Hul Hf.
    destruct (var_type var); try contradiction; split; reflexivity.
  - intros n id hVar' var' s Hcast Hreq.
    rewrite (var_validate_start_pending _ _ _ _ _ _ _ Hcast Hreq).
    unfold validation_value.
    repeat split; intros ->; reflexivity.
Qed.

End Validation.

(** ** Print sessions *)

Section PrintSession.
Context {vs : VarServerLib} {pl : Platform} {lc : LuaConv}.

Lemma var_close_print_session_open (w : World) p s rest fp rc s1 r p2 :
  is_session w p s →
  stream_f (ps_stream s) = Some fp →
  VAR_ClosePrintSession (hVarServer w) (ps_id s) (ps_fd s) (server w) = Some (rc, s1) →
  fclose fp (platform w) = Some (r, p2) →
  lua_call var_close_print_session (LUserdata p :: rest) w =
    Done (if bool_decide (rc = EOK) then [LNumber (Z2double 1)]
          else [LNil; LString (strerror rc)])
      (mkWorld (hVarServer w) s1 p2 [] 
         (<[p := mkUserdata (Some LUA_FILEHANDLE) zero_session]> (lua_heap w))
         (lua_globals w) (lua_registry w)
         (trace w ++ [EvClosePrintSession (hVarServer w) (ps_id s) (ps_fd s);
                      EvFclose fp])).
Proof.
  intros [Hheap Hreg] Hfp Hclose Hfclose.
  unfold lua_call, var_close_print_session, luaL_checkudata, session, store, deref.
  unfold_monad. step. rewrite Hheap. step.
  step. rewrite Hheap. step. rewrite Hclose. step. rewrite Hfp. step.
  rewrite Hfclose. step. rewrite Hheap. step.
  case_bool_decide; step; finish.
Qed.

Lemma var_close_print_session_closed (w : World) p s rest rc s1 :
  is_session w p s →
  stream_f (ps_stream s) = None →
  VAR_ClosePrintSession (hVarServer w) (ps_id s) (ps_fd s) (server w) = Some (rc, s1) →
  lua_call var_close_print_session (LUserdata p :: rest) w = Undefined.
Proof.
  intros [Hheap Hreg] Hfp Hclose.
  unfold lua_call, var_close_print_session, luaL_checkudata, session, store, deref.
  unfold_monad. step. rewrite Hheap. step.
  step. rewrite Hheap. step. rewrite Hclose. step. rewrite Hfp. reflexivity.
Qed.

(** C1, as the code has it: closing a print session first tells the server
    that the session is finished ([VAR_ClosePrintSession]) and then flushes
    and releases the local stream ([fclose]); no stream is released before
    the server is told. *)
Theorem var_close_print_session_informs_first (w : World) p s fp rc s1 r p2 :
  is_session w p s →
  stream_f (ps_stream s) = Some fp →
  VAR_ClosePrintSession (hVarServer w) (ps_id s) (ps_fd s) (server w) = Some (rc, s1) →
  fclose fp (platform w) = Some (r, p2) →
  calls w (lua_call var_close_print_session [LUserdata p] w)
    = [EvClosePrintSession (hVarServer w) (ps_id s) (ps_fd s); EvFclose fp]
  ∧ ¬ released_before_informed
        (calls w (lua_call var_close_print_session [LUserdata p] w)).
Proof.
  intros Hs Hfp Hclose Hfclose.
  rewrite (var_close_print_session_open _ _ _ _ _ _ _ _ _ Hs Hfp Hclose Hfclose).
  erewrite calls_app by reflexivity. split; [reflexivity |].
  intros (i & j & fp' & h & id & fd & Hlt & Hi & Hj).
  destruct i as [| [| i]]; try discriminate Hi.
  destruct j as [| [| j]]; try discriminate Hj. lia.
Qed.

(** C2: closing a print session releases the local stream whatever status
    the server-side close reports: [fclose] is called on the session's
    stream, the stream is gone from the C library and the session object is
    cleared.  When the status is not [EOK] the call returns [nil] and the
    text [strerror] gives for the status. *)
Theorem var_close_print_session_always_releases (w : World) p s fp rc s1 r p2 :
  is_session w p s →
  stream_f (ps_stream s) = Some fp →
  VAR_ClosePrintSession (hVarServer w) (ps_id s) (ps_fd s) (server w) = Some (rc, s1) →
  fclose fp (platform w) = Some (r, p2) →
  EvFclose fp ∈ calls w (lua_call var_close_print_session [LUserdata p] w)
  ∧ platform <$> final (lua_call var_close_print_session [LUserdata p] w) = Some p2
  ∧ (final (lua_call var_close_print_session [LUserdata p] w)
       ≫= λ w', lua_heap w' !! p)
    = Some (mkUserdata (Some LUA_FILEHANDLE) zero_session)
  ∧ (rc ≠ EOK →
     returned (lua_call var_close_print_session [LUserdata p] w)
       = Some [LNil; LString (strerror rc)])
  ∧ (rc = EOK →
     returned (lua_call var_close_print_session [LUserdata p] w)
       = Some [LNumber (Z2double 1)]).
Proof.
  intros Hs Hfp Hclose Hfclose.
  rewrite (var_close_print_session_open _ _ _ _ _ _ _ _ _ Hs Hfp Hclose Hfclose).
  erewrite calls_app by reflexivity.
  split; [apply list_elem_of_further, list_elem_of_here |].
  split; [reflexivity |].
  split; [cbn; apply lookup_insert_eq |].
  split; intros Hrc; cbn.
  - rewrite bool_decide_eq_false_2 by assumption. reflexivity.
  - rewrite bool_decide_eq_true_2 by assumption. reflexivity.
Qed.
End PrintSession.

(** ** The connection *)

(** Rules for [preserves (on_connection_since h t0)]: the Lua API leaves the
    handle and the trace alone, a call is logged on the connection [h]. *)
Section OnConnection.
Context {vs : VarServerLib} {pl : Platform} {lc : LuaConv}.
Context (h : VARSERVER_HANDLE) (t0 : list Event).

Lemma since_log (ev : Event) (w : World) :
  on_connection h ev → on_connection_since h t0 w → on_connection_since h t0 (log ev w).
Proof.
  intros Hev (Hh & evs & Ht & Hall). split; [exact Hh |].
  exists (evs ++ [ev]). split.
  - cbn. rewrite Ht. symmetry. apply app_assoc.
  - apply Forall_app. split; [exact Hall | repeat constructor; exact Hev].
Qed.

Lemma preserves_ret {A} (a : A) : preserves (on_connection_since h t0) (mret a).
Proof. intros w Hw. exact Hw. Qed.

Lemma preserves_bind {A B} (m : M A) (k : A → M B) :
  preserves (on_connection_since h t0) m →
  (∀ a, preserves (on_connection_since h t0) (k a)) →
  preserves (on_connection_since h t0) (m ≫= k).
Proof.
  intros Hm Hk w Hw. specialize (Hm w Hw). unfold mbind, M_bind.
  destruct (m w) as [a w1 | e w1 | |]; cbn in *; try exact Hm; try exact I.
  apply (Hk a w1 Hm).
Qed.

(** The handle a function reads is [h]. *)
Lemma preserves_handle {B} (k : VARSERVER_HANDLE → M B) :
  preserves (on_connection_since h t0) (k h) →
  preserves (on_connection_since h t0) (gets hVarServer ≫= k).
Proof.
  intros Hk w Hw. unfold mbind, M_bind, gets.
  destruct Hw as (Hh & Hcalls). rewrite Hh. apply Hk. split; assumption.
Qed.

Lemma preserves_undefined {A} : preserves (on_connection_since h t0) (undefined : M A).
Proof. intros w Hw. exact I. Qed.

Lemma preserves_gets {A} (g : World → A) : preserves (on_connection_since h t0) (gets g).
Proof. intros w Hw. exact Hw. Qed.

Lemma preserves_set_stack (s : list LuaValue) :
  preserves (on_connection_since h t0) (modify (set_stack s)).
Proof. intros w Hw. exact Hw. Qed.

Lemma preserves_deref {A} (L : lua_State_ptr) (m : M A) :
  preserves (on_connection_since h t0) m →
  preserves (on_connection_since h t0) (deref L m).
Proof. intros Hm. destruct L; [apply preserves_undefined | exact Hm]. Qed.

Lemma preserves_push (v : LuaValue) : preserves (on_connection_since h t0) (push v).
Proof. intros w Hw. exact Hw. Qed.

Lemma preserves_lua_pushnil L : preserves (on_connection_since h t0) (lua_pushnil L).
Proof. apply preserves_deref, preserves_push. Qed.

Lemma preserves_lua_pushnumber L n :
  preserves (on_connection_since h t0) (lua_pushnumber L n).
Proof. apply preserves_deref, preserves_push. Qed.

Lemma preserves_lua_pushstring L s :
  preserves (on_connection_since h t0) (lua_pushstring L s).
Proof. apply preserves_deref, preserves_push. Qed.

Lemma preserves_luaL_typename L idx :
  preserves (on_connection_since h t0) (luaL_typename L idx).
Proof. apply preserves_deref, preserves_gets. Qed.

Lemma preserves_luaL_checklstring L arg :
  preserves (on_connection_since h t0) (luaL_checklstring L arg).
Proof.
  apply preserves_deref. intros w Hw.
  destruct (index2value w arg) as [[] |]; exact Hw.
Qed.

Lemma preserves_luaL_checknumber L arg :
  preserves (on_connection_since h t0) (luaL_checknumber L arg).
Proof.
  apply preserves_deref. intros w Hw.
  destruct (index2value w arg) as [[] |]; try exact Hw.
  destruct (lua_str2number s); exact Hw.
Qed.

Lemma preserves_luaL_checkudata L arg tname :
  preserves (on_connection_since h t0) (luaL_checkudata L arg tname).
Proof.
  apply preserves_deref. intros w Hw.
  destruct (index2value w arg) as [[] |]; try exact Hw.
  destruct (lua_heap w !! p); [case_bool_decide |]; exact Hw.
Qed.

Lemma preserves_lua_newuserdata L :
  preserves (on_connection_since h t0) (lua_newuserdata L).
Proof. apply preserves_deref. intros w Hw. exact Hw. Qed.

Lemma preserves_luaL_setmetatable L tname :
  preserves (on_connection_since h t0) (luaL_setmetatable L tname).
Proof.
  apply preserves_deref. intros w Hw.
  destruct (last (lua_stack w)) as [[] |]; exact Hw.
Qed.

Lemma preserves_session p : preserves (on_connection_since h t0) (session p).
Proof. intros w Hw. unfold session. destruct (lua_heap w !! p); [exact Hw | exact I]. Qed.

Lemma preserves_store p g : preserves (on_connection_since h t0) (store p g).
Proof. intros w Hw. unfold store. destruct (lua_heap w !! p); [exact Hw | exact I]. Qed.

Lemma preserves_to_uint32 d : preserves (on_connection_since h t0) (to_uint32 d).
Proof.
  unfold to_uint32. destruct (double_to_uint32 d);
    [apply preserves_ret | apply preserves_undefined].
Qed.

Lemma preserves_to_enum d : preserves (on_connection_since h t0) (to_enum d).
Proof.
  unfold to_enum. destruct (double_to_int d);
    [apply preserves_ret | apply preserves_undefined].
Qed.

Lemma preserves_call_server {A} ev (op : Srv → option (A * Srv)) :
  on_connection h ev → preserves (on_connection_since h t0) (call_server ev op).
Proof.
  intros Hev w Hw. unfold call_server.
  destruct (op (server w)) as [[a s] |]; [| exact I].
  apply (since_log ev w Hev Hw).
Qed.

Lemma preserves_call_libc {A} ev (op : Plat → A * Plat) :
  on_connection h ev → preserves (on_connection_since h t0) (call_libc ev op).
Proof. intros Hev w Hw. apply (since_log ev w Hev Hw). Qed.

Lemma preserves_call_libc_partial {A} ev (op : Plat → option (A * Plat)) :
  on_connection h ev → preserves (on_connection_since h t0) (call_libc_partial ev op).
Proof.
  intros Hev w Hw. unfold call_libc_partial.
  destruct (op (platform w)) as [[a p] |]; [| exact I].
  apply (since_log ev w Hev Hw).
Qed.

Lemma preserves_call_blocking {A} ev (op : Plat → option (A * Plat)) :
  on_connection h ev → preserves (on_connection_since h t0) (call_blocking ev op).
Proof.
  intros Hev w Hw. unfold call_blocking.
  destruct (op (platform w)) as [[a p] |]; [| exact I].
  apply (since_log ev w Hev Hw).
Qed.

End OnConnection.

Ltac preserves_rule :=
  first
    [ apply preserves_ret | apply preserves_undefined | apply preserves_gets
    | apply preserves_set_stack
    | apply preserves_lua_pushnil | apply preserves_lua_pushnumber
    | apply preserves_lua_pushstring
    | apply preserves_luaL_typename | apply preserves_luaL_checklstring
    | apply preserves_luaL_checknumber | apply preserves_luaL_checkudata
    | apply preserves_lua_newuserdata | apply preserves_luaL_setmetatable
    | apply preserves_session | apply preserves_store
    | apply preserves_to_uint32 | apply preserves_to_enum
    | apply preserves_call_server; reflexivity
    | apply preserves_call_libc; exact I
    | apply preserves_call_libc_partial; exact I
    | apply preserves_call_blocking; exact I ].

Ltac preserves_walk :=
  repeat match goal with
    | |- preserves _ (gets hVarServer ≫= _) => apply preserves_handle
    | |- preserves _ (_ ≫= _) => apply preserves_bind; [| intros ?]
    | |- preserves _ (if ?b then _ else _) => destruct b
    | |- preserves _ (match ?x with _ => _ end) => destruct x
    | |- preserves _ _ => preserves_rule
    end.

Section Connection.
Context {vs : VarServerLib} {pl : Platform} {lc : LuaConv}.

(** Every function of the library table reads the handle and passes it on:
    it makes its calls on the connection the handle names, and leaves the
    handle as it is. *)
Lemma c_function_on_connection (fn : lua_CFunction) (L : lua_State_ptr) h t0 :
  preserves (on_connection_since h t0) (c_function fn L).
Proof.
  destruct fn; cbn [c_function];
    unfold var_get, var_find, var_set, var_notify, var_wait, var_validate_start,
      var_validate_end, var_open_print_session, var_close_print_session,
      global_unload;
    cbn zeta; preserves_walk.
Qed.

Lemma lua_call_on_connection (fn : lua_CFunction) (args : list LuaValue) (w : World) :
  Forall (on_connection (hVarServer w)) (calls w (lua_call (c_function fn) args w)).
Proof.
  assert (preserves (on_connection_since (hVarServer w) (trace w))
            (lua_call (c_function fn) args)) as Hcall.
  { unfold lua_call. preserves_walk. apply c_function_on_connection. }
  specialize (Hcall w). unfold calls.
  destruct (final (lua_call (c_function fn) args w)) as [w' |]; [| constructor].
  destruct Hcall as (_ & evs & Ht & Hall).
  - split; [reflexivity |]. exists []. split; [symmetry; apply app_nil_r | constructor].
  - rewrite Ht, drop_app_length. exact Hall.
Qed.

Lemma lua_setConst_run (name : string) (value : Z) (w : World) :
  lua_setConst L_state name value w
  = Done tt (set_globals (<[name := LNumber (Z2double value)]> (lua_globals w)) w).
Proof.
  unfold lua_setConst, lua_pushnumber, lua_setglobal, push, deref. unfold_monad.
  destruct w. cbn -[app]. rewrite last_snoc, removelast_last. reflexivity.
Qed.

Lemma setup_globals_run (w : World) :
  setup_globals L_state w = Done tt (set_globals (with_constants (lua_globals w)) w).
Proof.
  unfold setup_globals. cbn [is_NULL]. unfold mbind, M_bind.
  rewrite !lua_setConst_run. reflexivity.
Qed.

Local Arguments setup_globals : simpl never.

Lemma luaopen_connected (w : World) (a : Z) :
  hVarServer w = Some a →
  luaopen_libluavars L_state w =
    Done 1 (mkWorld (Some a) (server w) (platform w) (lua_stack w ++ [LTable vars_lib])
              (lua_heap w) (with_constants (lua_globals w)) (lua_registry w) (trace w)).
Proof.
  intros Hh. unfold luaopen_libluavars, lua_newtable, luaL_setfuncs, push, deref.
  cbn [is_NULL]. unfold_monad. rewrite Hh. step.
  rewrite last_snoc, removelast_last. rewrite setup_globals_run.
  apply done_eq; [reflexivity | same_world].
Qed.

Lemma luaopen_first (w : World) h s :
  hVarServer w = None →
  VARSERVER_Open (server w) = Some (h, s) →
  luaopen_libluavars L_state w =
    Done 1 (mkWorld h s (platform w) (lua_stack w ++ [LTable vars_lib])
              (lua_heap w) (with_constants (lua_globals w)) (lua_registry w)
              (trace w ++ [EvOpen])).
Proof.
  intros Hh Hopen. unfold luaopen_libluavars, lua_newtable, luaL_setfuncs, push, deref.
  cbn [is_NULL]. unfold_monad. rewrite Hh. step. rewrite Hopen. step.
  rewrite last_snoc, removelast_last. rewrite setup_globals_run.
  apply done_eq; [reflexivity | same_world].
Qed.

Lemma global_unload_connected (w : World) (L : lua_State_ptr) (a : Z) rc s :
  hVarServer w = Some a →
  VARSERVER_Close (Some a) (server w) = Some (rc, s) →
  global_unload L w =
    Done 0 (mkWorld (Some a) s (platform w) (lua_stack w) (lua_heap w)
              (lua_globals w) (lua_registry w) (trace w ++ [EvClose (Some a)])).
Proof.
  intros Hh Hclose. unfold global_unload. unfold_monad. rewrite Hh. step.
  rewrite Hclose. step. apply done_eq; [reflexivity | same_world].
Qed.

Lemma var_find_undefined (w : World) name rest :
  VAR_FindByName (hVarServer w) name (server w) = None →
  lua_call var_find (LString name :: rest) w = Undefined.
Proof.
  intros Hfind.
  unfold lua_call, var_find, luaL_checklstring, deref. unfold_monad. step.
  rewrite Hfind. reflexivity.
Qed.

Lemma var_find_answer (w : World) name rest hVar s1 :
  VAR_FindByName (hVarServer w) name (server w) = Some (hVar, s1) →
  lua_call var_find (LString name :: rest) w =
    Done (if bool_decide (hVar ≠ VAR_INVALID) then [LNumber (Z2double hVar)] else [])
      (mkWorld (hVarServer w) s1 (platform w) [] (lua_heap w) (lua_globals w)
         (lua_registry w) (trace w ++ [EvFindByName (hVarServer w) name])).
Proof.
  intros Hfind.
  unfold lua_call, var_find, luaL_checklstring, deref. unfold_monad. step.
  rewrite Hfind. step. case_bool_decide; step; finish.
Qed.

(** C7, as the code has it: when the handle is not [NULL],
    [luaopen_libluavars] keeps it and does not call [VARSERVER_Open].
    [global_unload] calls [VARSERVER_Close] and changes nothing the binding
    holds: the world it leaves differs from the one before in the library's
    state and the trace only, and the handle still names the closed
    connection.  So a later open does not connect again, and every function
    of the library table called afterwards makes its calls on that same
    connection and never opens one.  The binding adds no failure of its own:
    [var.find] returns what the library answers for the closed handle (no
    value for [VAR_INVALID]) and does not come back where the library call
    does not, and [var.wait] returns the signal it would have returned
    before the close. *)
Theorem luaopen_keeps_handle (w : World) (a : Z) :
  hVarServer w = Some a →
  (hVarServer <$> final (luaopen_libluavars L_state w) = Some (Some a)
   ∧ calls w (luaopen_libluavars L_state w) = [])
  ∧ ∀ L rc s,
      VARSERVER_Close (Some a) (server w) = Some (rc, s) →
      calls w (global_unload L w) = [EvClose (Some a)]
      ∧ hVarServer (after (global_unload L) w) = Some a
      ∧ server (after (global_unload L) w) = s
      ∧ calls (after (global_unload L) w)
              (luaopen_libluavars L_state (after (global_unload L) w)) = []
      ∧ (∀ name hVar s',
           VAR_FindByName (Some a) name s = Some (hVar, s') →
           calls (after (global_unload L) w)
                 (lua_call var_find [LString name] (after (global_unload L) w))
             = [EvFindByName (Some a) name]
           ∧ returned (lua_call var_find [LString name] (after (global_unload L) w))
             = Some (if bool_decide (hVar ≠ VAR_INVALID)
                     then [LNumber (Z2double hVar)] else []))
      ∧ (∀ name,
           VAR_FindByName (Some a) name s = None →
           lua_call var_find [LString name] (after (global_unload L) w) = Undefined)
      ∧ after (global_unload L) w
        = mkWorld (Some a) s (platform w) (lua_stack w) (lua_heap w)
                  (lua_globals w) (lua_registry w) (trace w ++ [EvClose (Some a)])
      ∧ (∀ fn args,
           Forall (on_connection (Some a))
             (calls (after (global_unload L) w)
                    (lua_call (c_function fn) args (after (global_unload L) w))))
      ∧ (∀ args sig info p,
           sigwaitinfo wait_set (uninitialised_siginfo (masked w)) (masked w)
             = Some ((sig, info), p) →
           returned (lua_call var_wait args (after (global_unload L) w))
             = Some [LNumber (Z2double sig); LNumber (Z2double (sival_int info))]
           ∧ calls (after (global_unload L) w)
                   (lua_call var_wait args (after (global_unload L) w))
             = wait_trace).
Proof.
  intros Hh. split.
  - rewrite (luaopen_connected _ _ Hh). split; [reflexivity |].
    apply calls_app. cbn. symmetry. apply app_nil_r.
  - intros L rc s Hclose. unfold after.
    rewrite (global_unload_connected _ L _ _ _ Hh Hclose). cbn [final default].
    split; [apply calls_app; reflexivity |].
    split; [reflexivity |]. split; [reflexivity |].
    split.
    + rewrite (luaopen_connected _ a) by reflexivity.
      apply calls_app. cbn. symmetry. apply app_nil_r.
    + split; [| split; [| split; [reflexivity | split]]].
      * intros name hVar s' Hfind.
        rewrite (var_find_answer _ _ _ hVar s') by exact Hfind.
        split; [apply calls_app; reflexivity | reflexivity].
      * intros name Hfind. apply var_find_undefined. exact Hfind.
      * intros fn args.
        exact (lua_call_on_connection fn args
                 (mkWorld (Some a) s (platform w) (lua_stack w) (lua_heap w)
                    (lua_globals w) (lua_registry w) (trace w ++ [EvClose (Some a)]))).
      * intros args sig info p Hwait.
        rewrite (var_wait_returns _ args sig info p) by exact Hwait.
        split; [reflexivity | apply calls_app; reflexivity].
Qed.
End Connection.

(** ** The properties on the sample environment *)

Module Scenario.
Import Sample.

Lemma session_42_printing : is_session printing 0 session_42.
Proof. split; [vm_compute; reflexivity | apply elem_of_singleton; reflexivity]. Qed.

Lemma session_42_orphaned : is_session orphaned 0 session_42.
Proof. split; [vm_compute; reflexivity | apply elem_of_singleton; reflexivity]. Qed.

(** C1: on the sample, the close of session 42 tells the server first and
    releases the stream second: the stream is not released before. *)
Lemma close_informs_before_release :
  calls printing (lua_call var_close_print_session [LUserdata 0] printing)
    = [EvClosePrintSession (Some client) 42 5; EvFclose 65541]
  ∧ ¬ released_before_informed
        (calls printing (lua_call var_close_print_session [LUserdata 0] printing)).
Proof.
  assert (calls printing (lua_call var_close_print_session [LUserdata 0] printing)
          = [EvClosePrintSession (Some client) 42 5; EvFclose 65541]) as E
    by (vm_compute; reflexivity).
  rewrite E. split; [reflexivity |].
  intros (i & j & fp' & h & id & fd & Hlt & Hi & Hj).
  destruct i as [| [| i]]; try discriminate Hi.
  destruct j as [| [| j]]; try discriminate Hj. lia.
Qed.

Lemma var_close_print_session_informs_first_witness :
  calls printing (lua_call var_close_print_session [LUserdata 0] printing)
    = [EvClosePrintSession (Some client) 42 5; EvFclose 65541].
Proof.
  apply (var_close_print_session_informs_first printing 0 session_42 65541
           0 (server printed) 0 (platform printed)).
  - exact session_42_printing.
  - reflexivity.
  - vm_compute. reflexivity.
  - vm_compute. reflexivity.
Defined.

(** C2 on the sample: the server has dropped the request, its close fails
    with [ENOENT], and the stream is released all the same. *)
Lemma var_close_print_session_always_releases_witness :
  EvFclose 65541
    ∈ calls orphaned (lua_call var_close_print_session [LUserdata 0] orphaned)
  ∧ returned (lua_call var_close_print_session [LUserdata 0] orphaned)
    = Some [LNil; LString "No such file or directory"].
Proof.
  destruct (var_close_print_session_always_releases orphaned 0 session_42 65541
              ENOENT (server orphaned) 0 (platform printed))
    as (Hrel & _ & _ & Hfail & _).
  - exact session_42_orphaned.
  - reflexivity.
  - vm_compute. reflexivity.
  - vm_compute. reflexivity.
  - split; [exact Hrel |]. apply Hfail. discriminate.
Defined.

(** C3 on the sample: transaction 8 is not pending. *)
Lemma var_validate_start_not_found_witness :
  returned (lua_call var_validate_start [LNumber 8] loaded) = Some []
  ∧ caller_reads 2 (lua_call var_validate_start [LNumber 8] loaded)
    = Some [LNil; LNil]
  ∧ calls loaded (lua_call var_validate_start [LNumber 8] loaded)
    = [EvGetValidationRequest (Some client) 8]
  ∧ lua_call var_validate_start [LNumber 8] loaded ≠ Blocked.
Proof.
  apply (var_validate_start_not_found loaded 8%float 8 ENOENT 0 no_object (server loaded)).
  - vm_compute. reflexivity.
  - vm_compute. reflexivity.
  - discriminate.
Defined.

(** C4 on the sample: [var.find] gives handle 1 for the temperature,
    [var.get] of that result looks up a variable named ["1.0"], finds none
    and returns nothing, while [var.get] of the name returns 21. *)
Lemma find_then_get_differs :
  returned (lua_call var_find [LString "temperature"] loaded) = Some [LNumber 1]
  ∧ calls loaded (find_then_get "temperature" loaded)
    = [EvFindByName (Some client) "temperature"; EvFindByName (Some client) "1.0"]
  ∧ returned (find_then_get "temperature" loaded) = Some []
  ∧ returned (lua_call var_get [LString "temperature"] loaded) = Some [LNumber 21]
  ∧ returned (find_then_get "temperature" loaded)
    ≠ returned (lua_call var_get [LString "temperature"] loaded).
Proof.
  assert (returned (find_then_get "temperature" loaded) = Some []) as E1
    by (vm_compute; reflexivity).
  assert (returned (lua_call var_get [LString "temperature"] loaded)
          = Some [LNumber 21]) as E2 by (vm_compute; reflexivity).
  rewrite E1, E2.
  split; [vm_compute; reflexivity |]. split; [vm_compute; reflexivity |].
  split; [reflexivity |]. split; [reflexivity | discriminate].
Qed.

Lemma var_get_uses_found_handle_witness :
  returned (lua_call var_find [LString "temperature"] loaded) = Some [LNumber 1]
  ∧ calls loaded (lua_call var_get [LString "temperature"] loaded)
    = [EvFindByName (Some client) "temperature"; EvGet (Some client) 1 8192]
  ∧ returned (lua_call var_get [LString "temperature"] loaded) = Some [LNumber 21].
Proof.
  destruct (var_get_uses_found_handle loaded "temperature" 1 (server loaded)
              (uint16_object 21) (server loaded))
    as (Hfind & Hcalls & Hget & _).
  - vm_compute. reflexivity.
  - discriminate.
  - vm_compute. reflexivity.
  - split; [exact Hfind |]. split; [exact Hcalls | exact Hget].
Defined.

(** C5 on the sample: there is no variable named pressure. *)
Lemma var_set_fails_without_setting_witness :
  caller_reads 1 (lua_call var_set [LString "pressure"; LString "25"] loaded)
    = Some [LNil]
  ∧ calls loaded (lua_call var_set [LString "pressure"; LString "25"] loaded)
    = [EvFindByName (Some client) "pressure"].
Proof.
  destruct (var_set_fails_without_setting loaded "25") as (Hname & _).
  apply (Hname "pressure" (server loaded)).
  vm_compute. reflexivity.
Defined.

(** C6: closing session 42 a second time.  The first close has cleared the
    object, which keeps its metatable; the second close passes the check of
    the argument, asks the server to close session 0 on descriptor 0 and
    calls [fclose] on a null stream. *)
Theorem var_close_print_session_twice :
  returned (lua_call var_close_print_session [LUserdata 0] printing)
    = Some [LNumber 1]
  ∧ lua_heap printed !! 0%nat = Some (mkUserdata (Some LUA_FILEHANDLE) zero_session)
  ∧ VAR_ClosePrintSession (hVarServer printed) 0 0 (server printed)
    = Some (ENOENT, server printed)
  ∧ lua_call var_close_print_session [LUserdata 0] printed = Undefined.
Proof.
  split; [vm_compute; reflexivity |]. split; [vm_compute; reflexivity |].
  split; [vm_compute; reflexivity |].
  apply (var_close_print_session_closed printed 0 zero_session [] ENOENT
           (server printed)).
  - split; [vm_compute; reflexivity | apply elem_of_singleton; reflexivity].
  - reflexivity.
  - vm_compute. reflexivity.
Qed.

(** C7 on the sample: after the unload the handle still holds the address
    of the closed connection and a new open does not connect.  No later
    operation is made to fail: [var.wait], which makes no call into the
    library, returns the pending validate signal, and on the library that
    goes on answering [var.get] returns the temperature. *)
Lemma operations_after_unload_succeed :
  hVarServer unloaded = Some client
  ∧ connected (server unloaded) = false
  ∧ calls unloaded (lua_call luaopen_libluavars [] unloaded) = []
  ∧ returned (lua_call var_wait [] unloaded) = Some [LNumber 42; LNumber 7]
  ∧ calls unloaded (lua_call var_wait [] unloaded)
    = [EvSigprocmask SIG_BLOCK wait_set; EvSigwaitinfo wait_set]
  ∧ hVarServer answering_unloaded = Some client
  ∧ connected (server answering_unloaded) = false
  ∧ returned (lua_call (vs := answering_lib) var_get [LString "temperature"]
                answering_unloaded)
    = Some [LNumber 21]
  ∧ calls answering_unloaded
      (lua_call (vs := answering_lib) var_get [LString "temperature"] answering_unloaded)
    = [EvFindByName (Some client) "temperature"; EvGet (Some client) 1 BUFSIZ].
Proof. repeat split; vm_compute; reflexivity. Qed.

Lemma luaopen_keeps_handle_witness :
  calls answering_loaded (luaopen_libluavars (vs := answering_lib) L_state answering_loaded)
  = []
  ∧ calls answering_loaded (global_unload (vs := answering_lib) L_state answering_loaded)
    = [EvClose (Some client)]
  ∧ hVarServer (after (global_unload (vs := answering_lib) L_state) answering_loaded)
    = Some client
  ∧ returned (lua_call (vs := answering_lib) var_find [LString "temperature"]
                (after (global_unload (vs := answering_lib) L_state) answering_loaded))
    = Some [LNumber (Z2double 1)]
  ∧ Forall (on_connection (Some client))
      (calls (after (global_unload (vs := answering_lib) L_state) answering_loaded)
         (lua_call (vs := answering_lib) (c_function fn_var_get) [LString "temperature"]
            (after (global_unload (vs := answering_lib) L_state) answering_loaded)))
  ∧ returned (lua_call (vs := answering_lib) var_wait []
                (after (global_unload (vs := answering_lib) L_state) answering_loaded))
    = Some [LNumber (Z2double 42); LNumber (Z2double 7)].
Proof.
  destruct (luaopen_keeps_handle (vs := answering_lib) answering_loaded client)
    as ((_ & Hopen) & Hunload).
  - vm_compute. reflexivity.
  - destruct (Hunload L_state 0 (server answering_unloaded))
      as (Hclose & Hh & _ & _ & Hfind & _ & _ & Hsame & Hwait).
    + vm_compute. reflexivity.
    + split; [exact Hopen |]. split; [exact Hclose |]. split; [exact Hh |].
      split; [| split].
      * destruct (Hfind "temperature" 1 (server answering_unloaded)) as (_ & Hfound).
        -- vm_compute. reflexivity.
        -- exact Hfound.
      * apply Hsame.
      * destruct (Hwait [] 42 (mkSiginfo 7)
                    (mkPlatform ∅ [Interrupted; Signal (rt_min + 9) 42] (mkSiginfo 12345)))
          as (Hsignal & _).
        -- vm_compute. reflexivity.
        -- exact Hsignal.
Defined.

(** C8 on the sample: the validate signal of transaction 7 is delivered. *)
Lemma var_wait_fixed_signal_set_witness :
  returned (lua_call var_wait [] loaded) = Some [LNumber 42; LNumber 7]
  ∧ calls loaded (lua_call var_wait [] loaded)
    = [EvSigprocmask SIG_BLOCK wait_set; EvSigwaitinfo wait_set].
Proof.
  destruct (var_wait_fixed_signal_set loaded []) as (_ & Hdelivered & _).
  apply (Hdelivered 42 (mkSiginfo 7)
           (mkPlatform ∅ [Interrupted; Signal (rt_min + 9) 42] (mkSiginfo 12345))).
  vm_compute. reflexivity.
Defined.

(** C9 on the sample: the offset is an int16 variable, [var.get] returns
    nothing for it. *)
Lemma var_get_four_kinds_witness :
  returned (lua_call var_get [LString "offset"] loaded) = Some []
  ∧ caller_reads 1 (lua_call var_get [LString "offset"] loaded) = Some [LNil].
Proof.
  destruct (var_get_four_kinds loaded "offset" 3 (server loaded)
              (int16_object (-4)) (server loaded))
    as (_ & _ & _ & _ & Hother & _).
  - vm_compute. reflexivity.
  - discriminate.
  - vm_compute. reflexivity.
  - apply Hother; discriminate.
Defined.

(** C10 on the sample: the wait is interrupted, the payload is what the
    uninitialised [info] held. *)
Lemma var_wait_two_numbers_witness :
  returned (lua_call var_wait [] interrupted) = Some [LNumber (-1); LNumber 12345].
Proof.
  destruct (var_wait_two_numbers interrupted []) as (_ & Hfailed).
  apply (Hfailed (mkSiginfo 12345) (mkPlatform ∅ [] (mkSiginfo 12345))).
  vm_compute. reflexivity.
Defined.

End Scenario.

(** ** Further properties of the binding *)

Ltac same_trace :=
  apply world_eq; cbn -[app]; rewrite <- ?app_assoc;
  first [reflexivity | assumption | symmetry; assumption].

Ltac finish_run :=
  rewrite <- ?app_assoc; rewrite ?top_values by reflexivity; rewrite ?top_nothing;
  apply done_eq; [reflexivity | same_trace].

Section Arguments.
Context {vs : VarServerLib} {pl : Platform} {lc : LuaConv}.

Lemma var_get_not_fetched (w : World) name rest hVar s1 rc var s2 :
  VAR_FindByName (hVarServer w) name (server w) = Some (hVar, s1) →
  hVar ≠ VAR_INVALID →
  VAR_Get (hVarServer w) hVar BUFSIZ s1 = Some ((rc, var), s2) →
  rc ≠ EOK →
  lua_call var_get (LString name :: rest) w =
    Done []
      (mkWorld (hVarServer w) s2 (platform w) [] (lua_heap w) (lua_globals w)
         (lua_registry w)
         (trace w ++ [EvFindByName (hVarServer w) name; EvGet (hVarServer w) hVar BUFSIZ])).
Proof.
  intros Hfind Hvalid Hget Hrc.
  unfold lua_call, var_get, luaL_checklstring, deref. unfold_monad. step.
  rewrite Hfind. step. rewrite Hget. step. finish.
Qed.

Lemma var_get_bad_argument (w : World) (args : list LuaValue) :
  no_text (head args) →
  lua_call var_get args w = Raise (bad_argument 1 "string") (set_stack args w).
Proof.
  intros Hbad.
  unfold lua_call, var_get, luaL_checklstring, deref. unfold_monad.
  destruct args as [| [] rest]; cbn in Hbad; try contradiction; reflexivity.
Qed.

Lemma var_find_bad_argument (w : World) (args : list LuaValue) :
  no_text (head args) →
  lua_call var_find args w = Raise (bad_argument 1 "string") (set_stack args w).
Proof.
  intros Hbad.
  unfold lua_call, var_find, luaL_checklstring, deref. unfold_monad.
  destruct args as [| [] rest]; cbn in Hbad; try contradiction; reflexivity.
Qed.

Lemma var_set_name_done (w : World) name value rest hVar s1 type s2 rc s3 :
  VAR_FindByName (hVarServer w) name (server w) = Some (hVar, s1) →
  hVar ≠ VAR_INVALID →
  VAR_GetType (hVarServer w) hVar s1 = Some ((EOK, type), s2) →
  VAR_SetStr (hVarServer w) hVar type value s2 = Some (rc, s3) →
  lua_call var_set (LString name :: LString value :: rest) w =
    Done (if bool_decide (rc = EOK) then [LNumber (Z2double 1)] else [])
      (mkWorld (hVarServer w) s3 (platform w) [] (lua_heap w) (lua_globals w)
         (lua_registry w)
         (trace w ++ [EvFindByName (hVarServer w) name;
                      EvGetType (hVarServer w) hVar;
                      EvSetStr (hVarServer w) hVar type value])).
Proof.
  intros Hfind Hvalid Htype Hset.
  unfold lua_call, var_set, luaL_typename, luaL_checklstring, deref.
  unfold_monad. step. rewrite Hfind. step. rewrite Htype. step. rewrite Hset. step.
  case_bool_decide; step; finish_run.
Qed.

Lemma var_set_name_no_value (w : World) name rest hVar s1 :
  VAR_FindByName (hVarServer w) name (server w) = Some (hVar, s1) →
  no_text (head rest) →
  lua_call var_set (LString name :: rest) w =
    Raise (bad_argument 2 "string")
      (mkWorld (hVarServer w) s1 (platform w) (LString name :: rest) (lua_heap w)
         (lua_globals w) (lua_registry w)
         (trace w ++ [EvFindByName (hVarServer w) name])).
Proof.
  intros Hfind Hbad.
  unfold lua_call, var_set, luaL_typename, luaL_checklstring, deref.
  unfold_monad. step. rewrite Hfind.
  destruct rest as [| [] rest]; cbn in Hbad; try contradiction; step;
    (f_equal; same_trace).
Qed.

Lemma var_set_handle_no_value (w : World) n rest hVar :
  double_to_uint32 n = Some hVar →
  no_text (head rest) →
  lua_call var_set (LNumber n :: rest) w =
    Raise (bad_argument 2 "string") (set_stack (LNumber n :: rest) w).
Proof.
  intros Hcast Hbad.
  unfold lua_call, var_set, luaL_typename, luaL_checklstring, luaL_checknumber,
    to_uint32, deref.
  unfold_monad. step. rewrite Hcast.
  destruct rest as [| [] rest]; cbn in Hbad; try contradiction; reflexivity.
Qed.

Lemma var_notify_done (w : World) n1 n2 rest hVar kind rc s :
  double_to_uint32 n1 = Some hVar →
  double_to_int n2 = Some kind →
  VAR_Notify (hVarServer w) hVar kind (server w) = Some (rc, s) →
  lua_call var_notify (LNumber n1 :: LNumber n2 :: rest) w =
    Done [if bool_decide (rc = EOK) then LNumber (Z2double EOK) else LNil]
      (mkWorld (hVarServer w) s (platform w) [] (lua_heap w) (lua_globals w)
         (lua_registry w) (trace w ++ [EvNotify (hVarServer w) hVar kind])).
Proof.
  intros Hh Hk Hnotify.
  unfold lua_call, var_notify, luaL_checknumber, to_uint32, to_enum, deref.
  unfold_monad. step. rewrite Hh. step. rewrite Hk. step. rewrite Hnotify. step.
  case_bool_decide; step; [subst rc |]; finish.
Qed.

Lemma var_validate_end_done (w : World) n1 n2 rest id response rc s :
  double_to_uint32 n1 = Some id →
  double_to_uint32 n2 = Some response →
  VAR_SendValidationResponse (hVarServer w) id response (server w) = Some (rc, s) →
  lua_call var_validate_end (LNumber n1 :: LNumber n2 :: rest) w =
    Done [if bool_decide (rc = EOK) then LNumber (Z2double 1) else LNil]
      (mkWorld (hVarServer w) s (platform w) [] (lua_heap w) (lua_globals w)
         (lua_registry w)
         (trace w ++ [EvSendValidationResponse (hVarServer w) id response])).
Proof.
  intros Hid Hresp Hsend.
  unfold lua_call, var_validate_end, luaL_checknumber, to_uint32, deref.
  unfold_monad. step. rewrite Hid. step. rewrite Hresp. step. rewrite Hsend. step.
  case_bool_decide; step; finish.
Qed.

Lemma var_validate_end_no_verdict (w : World) n1 rest id :
  double_to_uint32 n1 = Some id →
  no_number (head rest) →
  lua_call var_validate_end (LNumber n1 :: rest) w =
    Raise (bad_argument 2 "number") (set_stack (LNumber n1 :: rest) w).
Proof.
  intros Hid Hbad.
  unfold lua_call, var_validate_end, luaL_checknumber, to_uint32, deref.
  unfold_monad. step. rewrite Hid. step.
  destruct rest as [| [] rest]; cbn in Hbad; try contradiction; try reflexivity.
  cbn. rewrite Hbad. reflexivity.
Qed.

Lemma var_validate_end_no_id (w : World) args :
  no_number (head args) →
  lua_call var_validate_end args w =
    Raise (bad_argument 1 "number") (set_stack args w).
Proof.
  intros Hbad.
  unfold lua_call, var_validate_end, luaL_checknumber, to_uint32, deref.
  unfold_monad.
  destruct args as [| [] rest]; cbn in Hbad; try contradiction; try reflexivity.
  cbn. rewrite Hbad. reflexivity.
Qed.

End Arguments.

Section Sessions.
Context {vs : VarServerLib} {pl : Platform} {lc : LuaConv}.

Lemma store_inserted (p : nat) (g : LuaPrintSession → LuaPrintSession)
    (w : World) (ud : Userdata) (m : gmap nat Userdata) :
  lua_heap w = <[p := ud]> m →
  store p g w
  = Done tt (set_heap (<[p := mkUserdata (ud_metatable ud) (g (ud_block ud))]> m) w).
Proof.
  intros Hheap. unfold store. rewrite Hheap, lookup_insert_eq, insert_insert_eq.
  reflexivity.
Qed.

Lemma setmetatable_inserted (tname : string) (w : World) (p : nat) (ud : Userdata)
    (m : gmap nat Userdata) (s : list LuaValue) :
  lua_stack w = s ++ [LUserdata p] →
  lua_heap w = <[p := ud]> m →
  luaL_setmetatable L_state tname w
  = Done tt (set_heap
               (<[p := mkUserdata (if bool_decide (tname ∈ lua_registry w)
                                   then Some tname else None) (ud_block ud)]> m) w).
Proof.
  intros Hstack Hheap. unfold luaL_setmetatable, deref.
  rewrite Hstack, last_snoc, Hheap. rewrite alter_insert_eq. reflexivity.
Qed.

Local Arguments store : simpl never.
Local Arguments luaL_setmetatable : simpl never.

Lemma var_open_print_session_opened (w : World) n rest id hVar fd s1 :
  double_to_uint32 n = Some id →
  VAR_OpenPrintSession (hVarServer w) id (server w) = Some ((EOK, hVar, fd), s1) →
  lua_call var_open_print_session (LNumber n :: rest) w =
    Done [LUserdata (fresh (dom (lua_heap w))); LNumber (Z2double hVar)]
      (mkWorld (hVarServer w) s1 (fdopen fd "w" (platform w)).2 []
         (<[fresh (dom (lua_heap w)) :=
              mkUserdata (file_metatable w)
                (new_session id fd hVar (fdopen fd "w" (platform w)).1)]> (lua_heap w))
         (lua_globals w) (lua_registry w)
         (trace w ++ [EvOpenPrintSession (hVarServer w) id; EvFdopen fd "w"])).
Proof.
  intros Hid Hopen.
  unfold lua_call, var_open_print_session, luaL_checknumber, to_uint32,
    lua_newuserdata, lua_pushnumber, push, deref.
  unfold_monad. step. rewrite Hid. step. rewrite Hopen. step.
  erewrite setmetatable_inserted by (cbn -[app]; reflexivity). step.
  erewrite store_inserted by (cbn -[app]; reflexivity). step.
  erewrite store_inserted by (cbn -[app]; reflexivity). step.
  erewrite store_inserted by (cbn -[app]; reflexivity). step.
  erewrite store_inserted by (cbn -[app]; reflexivity). step.
  erewrite store_inserted by (cbn -[app]; reflexivity). step.
  finish_run.
Qed.

Lemma var_open_print_session_refused (w : World) n rest id rc hVar fd s1 :
  double_to_uint32 n = Some id →
  VAR_OpenPrintSession (hVarServer w) id (server w) = Some ((rc, hVar, fd), s1) →
  rc ≠ EOK →
  lua_call var_open_print_session (LNumber n :: rest) w =
    Done [LNil]
      (mkWorld (hVarServer w) s1 (platform w) [] (lua_heap w) (lua_globals w)
         (lua_registry w) (trace w ++ [EvOpenPrintSession (hVarServer w) id])).
Proof.
  intros Hid Hopen Hrc.
  unfold lua_call, var_open_print_session, luaL_checknumber, to_uint32,
    lua_pushnil, push, deref.
  unfold_monad. step. rewrite Hid. step. rewrite Hopen. step. finish_run.
Qed.

Lemma var_close_print_session_bad_argument (w : World) (args : list LuaValue) :
  (∀ p s, head args = Some (LUserdata p) → ¬ is_session w p s) →
  lua_call var_close_print_session args w =
    Raise (bad_argument 1 LUA_FILEHANDLE) (set_stack args w).
Proof.
  intros Hbad.
  unfold lua_call, var_close_print_session, luaL_checkudata, deref. unfold_monad.
  destruct args as [| [] rest]; try reflexivity.
  cbn -[app]. destruct (lua_heap w !! p) as [[mt blk] |] eqn:Hheap; [| reflexivity].
  case_bool_decide as Hcheck; [| reflexivity].
  cbn in Hcheck. destruct Hcheck as [-> Hreg].
  exfalso. apply (Hbad p blk eq_refl). split; assumption.
Qed.

End Sessions.

Section OpenClose.
Context {vs : VarServerLib} {pl : Platform} {lc : LuaConv}.

Lemma opened_is_session (w : World) s1 p1 id fd hVar fp tr :
  LUA_FILEHANDLE ∈ lua_registry w →
  is_session
    (mkWorld (hVarServer w) s1 p1 []
       (<[fresh (dom (lua_heap w)) :=
            mkUserdata (file_metatable w) (new_session id fd hVar fp)]> (lua_heap w))
       (lua_globals w) (lua_registry w) tr)
    (fresh (dom (lua_heap w))) (new_session id fd hVar fp).
Proof.
  intros Hreg. split; [| exact Hreg]. cbn.
  rewrite lookup_insert_eq. unfold file_metatable.
  rewrite bool_decide_eq_true_2 by exact Hreg. reflexivity.
Qed.

Lemma open_then_close_run (w : World) n id hVar fd s1 fp p1 rc s2 r p2 :
  double_to_uint32 n = Some id →
  VAR_OpenPrintSession (hVarServer w) id (server w) = Some ((EOK, hVar, fd), s1) →
  fdopen fd "w" (platform w) = (Some fp, p1) →
  LUA_FILEHANDLE ∈ lua_registry w →
  VAR_ClosePrintSession (hVarServer w) id fd s1 = Some (rc, s2) →
  fclose fp p1 = Some (r, p2) →
  open_then_close n w =
    Done (if bool_decide (rc = EOK) then [LNumber (Z2double 1)]
          else [LNil; LString (strerror rc)])
      (mkWorld (hVarServer w) s2 p2 []
         (<[fresh (dom (lua_heap w)) :=
              mkUserdata (Some LUA_FILEHANDLE) zero_session]> (lua_heap w))
         (lua_globals w) (lua_registry w)
         (trace w ++ [EvOpenPrintSession (hVarServer w) id; EvFdopen fd "w";
                      EvClosePrintSession (hVarServer w) id fd; EvFclose fp])).
Proof.
  intros Hid Hopen Hfdopen Hreg Hclose Hfclose.
  unfold open_then_close, mbind, M_bind.
  rewrite (var_open_print_session_opened _ _ _ _ _ _ _ Hid Hopen).
  rewrite Hfdopen. cbn [fst snd take].
  erewrite var_close_print_session_open;
    [ | apply opened_is_session; exact Hreg | reflexivity | exact Hclose | exact Hfclose ].
  apply done_eq; [reflexivity |].
  apply world_eq; cbn -[app]; try reflexivity.
  - apply insert_insert_eq.
  - rewrite <- app_assoc. reflexivity.
Qed.

Lemma open_then_close_no_stream (w : World) n id hVar fd s1 p1 rc s2 :
  double_to_uint32 n = Some id →
  VAR_OpenPrintSession (hVarServer w) id (server w) = Some ((EOK, hVar, fd), s1) →
  fdopen fd "w" (platform w) = (None, p1) →
  LUA_FILEHANDLE ∈ lua_registry w →
  VAR_ClosePrintSession (hVarServer w) id fd s1 = Some (rc, s2) →
  open_then_close n w = Undefined.
Proof.
  intros Hid Hopen Hfdopen Hreg Hclose.
  unfold open_then_close, mbind, M_bind.
  rewrite (var_open_print_session_opened _ _ _ _ _ _ _ Hid Hopen).
  rewrite Hfdopen. cbn [fst snd take].
  erewrite var_close_print_session_closed;
    [ reflexivity | apply opened_is_session; exact Hreg | reflexivity | exact Hclose ].
Qed.

End OpenClose.

(** ** What the library functions leave alone *)

Section Frames.
Context {vs : VarServerLib} {pl : Platform} {lc : LuaConv}.

Global Instance same_environment_frame : Frame same_environment.
Proof.
  split; unfold same_environment; cbn; try tauto.
  intros w1 w2 w3 (-> & -> & ->) (-> & -> & ->). tauto.
Qed.

Global Instance same_environment_heap_frame : HeapFrame same_environment.
Proof. split. unfold same_environment. cbn. tauto. Qed.

Global Instance same_heap_frame : Frame same_heap.
Proof.
  split; unfold same_heap; cbn; try reflexivity.
  intros w1 w2 w3 -> ->. reflexivity.
Qed.

Section Rules.
Context (R : World → World → Prop) `{!Frame R}.

Lemma keeps_ret {A} (a : A) : keeps R (mret a).
Proof. intros w. apply frame_refl. Qed.

Lemma keeps_bind {A B} (m : M A) (k : A → M B) :
  keeps R m → (∀ a, keeps R (k a)) → keeps R (m ≫= k).
Proof.
  intros Hm Hk w. specialize (Hm w). unfold mbind, M_bind.
  destruct (m w) as [a w1 | e w1 | |]; cbn in *; try exact Hm; try exact I.
  specialize (Hk a w1).
  destruct (k a w1) as [b w2 | e w2 | |]; cbn in *; try exact I;
    eapply frame_trans; eassumption.
Qed.

Lemma keeps_undefined {A} : keeps R (undefined : M A).
Proof. intros w. exact I. Qed.

Lemma keeps_gets {A} (g : World → A) : keeps R (gets g).
Proof. intros w. apply frame_refl. Qed.

Lemma keeps_deref {A} (L : lua_State_ptr) (m : M A) : keeps R m → keeps R (deref L m).
Proof. intros Hm. destruct L; [apply keeps_undefined | exact Hm]. Qed.

Lemma keeps_push (v : LuaValue) : keeps R (push v).
Proof. intros w. apply frame_stack. Qed.

Lemma keeps_lua_pushnil L : keeps R (lua_pushnil L).
Proof. apply keeps_deref, keeps_push. Qed.

Lemma keeps_lua_pushnumber L n : keeps R (lua_pushnumber L n).
Proof. apply keeps_deref, keeps_push. Qed.

Lemma keeps_lua_pushstring L s : keeps R (lua_pushstring L s).
Proof. apply keeps_deref, keeps_push. Qed.

Lemma keeps_luaL_typename L idx : keeps R (luaL_typename L idx).
Proof. apply keeps_deref, keeps_gets. Qed.

Lemma keeps_luaL_checklstring L arg : keeps R (luaL_checklstring L arg).
Proof.
  apply keeps_deref. intros w.
  destruct (index2value w arg) as [[] |]; cbn;
    first [apply frame_refl | apply frame_stack].
Qed.

Lemma keeps_luaL_checknumber L arg : keeps R (luaL_checknumber L arg).
Proof.
  apply keeps_deref. intros w.
  destruct (index2value w arg) as [[] |]; cbn; try apply frame_refl.
  destruct (lua_str2number s); apply frame_refl.
Qed.

Lemma keeps_luaL_checkudata L arg tname : keeps R (luaL_checkudata L arg tname).
Proof.
  apply keeps_deref. intros w.
  destruct (index2value w arg) as [[] |]; cbn; try apply frame_refl.
  destruct (lua_heap w !! p); [case_bool_decide |]; apply frame_refl.
Qed.

Lemma keeps_to_uint32 d : keeps R (to_uint32 d).
Proof.
  unfold to_uint32. destruct (double_to_uint32 d);
    [apply keeps_ret | apply keeps_undefined].
Qed.

Lemma keeps_to_enum d : keeps R (to_enum d).
Proof.
  unfold to_enum. destruct (double_to_int d);
    [apply keeps_ret | apply keeps_undefined].
Qed.

Lemma keeps_call_server {A} ev (op : Srv → option (A * Srv)) :
  keeps R (call_server ev op).
Proof.
  intros w. unfold call_server. destruct (op (server w)) as [[a s] |]; cbn; [| exact I].
  eapply frame_trans; [apply frame_log | apply frame_server].
Qed.

Lemma keeps_call_libc {A} ev (op : Plat → A * Plat) : keeps R (call_libc ev op).
Proof.
  intros w. unfold call_libc. cbn.
  eapply frame_trans; [apply frame_log | apply frame_platform].
Qed.

Lemma keeps_call_libc_partial {A} ev (op : Plat → option (A * Plat)) :
  keeps R (call_libc_partial ev op).
Proof.
  intros w. unfold call_libc_partial.
  destruct (op (platform w)) as [[a p] |]; cbn; [| exact I].
  eapply frame_trans; [apply frame_log | apply frame_platform].
Qed.

Lemma keeps_call_blocking {A} ev (op : Plat → option (A * Plat)) :
  keeps R (call_blocking ev op).
Proof.
  intros w. unfold call_blocking.
  destruct (op (platform w)) as [[a p] |]; cbn; [| exact I].
  eapply frame_trans; [apply frame_log | apply frame_platform].
Qed.

Lemma keeps_session p : keeps R (session p).
Proof.
  intros w. unfold session. destruct (lua_heap w !! p); cbn; [apply frame_refl | exact I].
Qed.

Context `{!HeapFrame R}.

Lemma keeps_store p g : keeps R (store p g).
Proof.
  intros w. unfold store. destruct (lua_heap w !! p); cbn; [apply frame_heap | exact I].
Qed.

Lemma keeps_lua_newuserdata L : keeps R (lua_newuserdata L).
Proof.
  apply keeps_deref. intros w. cbn.
  eapply frame_trans; [apply frame_heap | apply frame_stack].
Qed.

Lemma keeps_luaL_setmetatable L tname : keeps R (luaL_setmetatable L tname).
Proof.
  apply keeps_deref. intros w.
  destruct (last (lua_stack w)) as [[] |]; cbn;
    first [apply frame_refl | apply frame_heap].
Qed.

End Rules.
End Frames.

Ltac keeps_rule :=
  first
    [ apply keeps_ret | apply keeps_undefined | apply keeps_gets
    | apply keeps_lua_pushnil | apply keeps_lua_pushnumber | apply keeps_lua_pushstring
    | apply keeps_luaL_typename | apply keeps_luaL_checklstring
    | apply keeps_luaL_checknumber | apply keeps_luaL_checkudata
    | apply keeps_to_uint32 | apply keeps_to_enum
    | apply keeps_call_server | apply keeps_call_libc
    | apply keeps_call_libc_partial | apply keeps_call_blocking
    | apply keeps_session
    | apply keeps_store | apply keeps_lua_newuserdata | apply keeps_luaL_setmetatable ];
  try exact _.

Ltac keeps_walk :=
  repeat match goal with
    | |- keeps _ (_ ≫= _) => apply keeps_bind; [exact _ | | intros ?]
    | |- keeps _ (if ?b then _ else _) => destruct b
    | |- keeps _ (match ?x with _ => _ end) => destruct x
    | |- keeps _ _ => keeps_rule
    end.

Section Invariants.
Context {vs : VarServerLib} {pl : Platform} {lc : LuaConv}.

Lemma c_function_keeps_environment (fn : lua_CFunction) (L : lua_State_ptr) :
  keeps same_environment (c_function fn L).
Proof.
  destruct fn; cbn [c_function];
    unfold var_get, var_find, var_set, var_notify, var_wait, var_validate_start,
      var_validate_end, var_open_print_session, var_close_print_session,
      global_unload;
    cbn zeta; keeps_walk.
Qed.

End Invariants.

Section Loading.
Context {vs : VarServerLib} {pl : Platform} {lc : LuaConv}.

Lemma with_constants_defined (g : gmap string LuaValue) name value :
  (name, value) ∈ constants →
  with_constants g !! name = Some (LNumber (Z2double value)).
Proof.
  unfold constants. rewrite !elem_of_cons, elem_of_nil.
  unfold with_constants.
  intros [E | [E | [E | [E | [E | [E | [E | [E | []]]]]]]]];
    injection E as -> ->;
    repeat first [ apply lookup_insert_eq | rewrite lookup_insert_ne by discriminate ].
Qed.

Lemma with_constants_others (g : gmap string LuaValue) name :
  name ∉ constants.*1 →
  with_constants g !! name = g !! name.
Proof.
  unfold constants. cbn [fmap list_fmap fst].
  rewrite !not_elem_of_cons. intros (? & ? & ? & ? & ? & ? & ? & ? & _).
  unfold with_constants. rewrite !lookup_insert_ne by congruence. reflexivity.
Qed.

Lemma luaopen_null (w : World) : luaopen_libluavars L_NULL w = Done 1 w.
Proof. reflexivity. Qed.

End Loading.

Section AccessProperties.
Context {vs : VarServerLib} {pl : Platform} {lc : LuaConv}.

Lemma calls_raise {A} (w : World) (e : LuaError) (w' : World) (evs : list Event) :
  trace w' = trace w ++ evs → calls w (Raise e w' : Outcome A) = evs.
Proof. intros E. unfold calls. cbn. rewrite E. apply drop_app_length. Qed.

Lemma calls_none {A} (w : World) (e : LuaError) (s : list LuaValue) :
  calls w (Raise e (set_stack s w) : Outcome A) = [].
Proof. apply calls_raise. cbn. symmetry. apply app_nil_r. Qed.

(** X1: [var.find] makes one lookup and nothing else; it returns the handle
    when the lookup gives a valid one and no value, read as [nil], when the
    name is unknown. *)
Theorem var_find_one_lookup (w : World) name hVar s1 :
  VAR_FindByName (hVarServer w) name (server w) = Some (hVar, s1) →
  calls w (lua_call var_find [LString name] w) = [EvFindByName (hVarServer w) name]
  ∧ (hVar ≠ VAR_INVALID →
     returned (lua_call var_find [LString name] w) = Some [LNumber (Z2double hVar)])
  ∧ (hVar = VAR_INVALID →
     returned (lua_call var_find [LString name] w) = Some []
     ∧ caller_reads 1 (lua_call var_find [LString name] w) = Some [LNil]).
Proof.
  intros Hfind. rewrite (var_find_answer _ _ _ _ _ Hfind).
  split; [apply calls_app; reflexivity |]. split; intros Hh; cbn.
  - rewrite bool_decide_eq_true_2 by exact Hh. reflexivity.
  - rewrite bool_decide_eq_false_2 by (intros Hne; exact (Hne Hh)).
    split; reflexivity.
Qed.

(** X2: [var.get] of an unknown name stops after the lookup, without a
    fetch; when the fetch fails it returns no value either. *)
Theorem var_get_absent (w : World) name :
  (∀ s1,
     VAR_FindByName (hVarServer w) name (server w) = Some (VAR_INVALID, s1) →
     returned (lua_call var_get [LString name] w) = Some []
     ∧ calls w (lua_call var_get [LString name] w)
       = [EvFindByName (hVarServer w) name])
  ∧ (∀ hVar s1 rc var s2,
       VAR_FindByName (hVarServer w) name (server w) = Some (hVar, s1) →
       hVar ≠ VAR_INVALID →
       VAR_Get (hVarServer w) hVar BUFSIZ s1 = Some ((rc, var), s2) →
       rc ≠ EOK →
       returned (lua_call var_get [LString name] w) = Some []
       ∧ calls w (lua_call var_get [LString name] w)
         = [EvFindByName (hVarServer w) name; EvGet (hVarServer w) hVar BUFSIZ]).
Proof.
  split.
  - intros s1 Hfind. rewrite (var_get_unknown _ _ _ _ Hfind).
    split; [reflexivity | apply calls_app; reflexivity].
  - intros hVar s1 rc var s2 Hfind Hvalid Hget Hrc.
    rewrite (var_get_not_fetched _ _ _ _ _ _ _ _ Hfind Hvalid Hget Hrc).
    split; [reflexivity | apply calls_app; reflexivity].
Qed.

(** X3: given no argument, or one that is neither a string nor a number,
    [var.get] and [var.find] raise a Lua error for argument 1 and call
    nothing. *)
Theorem var_get_find_bad_argument (w : World) (args : list LuaValue) :
  no_text (head args) →
  lua_call var_get args w = Raise (bad_argument 1 "string") (set_stack args w)
  ∧ lua_call var_find args w = Raise (bad_argument 1 "string") (set_stack args w)
  ∧ calls w (lua_call var_get args w) = []
  ∧ calls w (lua_call var_find args w) = [].
Proof.
  intros Hbad.
  rewrite (var_get_bad_argument _ _ Hbad), (var_find_bad_argument _ _ Hbad).
  split; [reflexivity |]. split; [reflexivity |]. split; apply calls_none.
Qed.

(** X4: when the reference resolves and the type query succeeds, [var.set]
    calls [VAR_SetStr] once, with the resolved handle, the type the query
    returned and the text given; it returns 1 when the status is [EOK] and
    no value otherwise. *)
Theorem var_set_sets_with_queried_type (w : World) (value : string) :
  (∀ name hVar s1 type s2 rc s3,
     VAR_FindByName (hVarServer w) name (server w) = Some (hVar, s1) →
     hVar ≠ VAR_INVALID →
     VAR_GetType (hVarServer w) hVar s1 = Some ((EOK, type), s2) →
     VAR_SetStr (hVarServer w) hVar type value s2 = Some (rc, s3) →
     calls w (lua_call var_set [LString name; LString value] w)
       = [EvFindByName (hVarServer w) name; EvGetType (hVarServer w) hVar;
          EvSetStr (hVarServer w) hVar type value]
     ∧ returned (lua_call var_set [LString name; LString value] w)
       = Some (if bool_decide (rc = EOK) then [LNumber (Z2double 1)] else []))
  ∧ (∀ n hVar type s2 rc s3,
       double_to_uint32 n = Some hVar →
       hVar ≠ VAR_INVALID →
       VAR_GetType (hVarServer w) hVar (server w) = Some ((EOK, type), s2) →
       VAR_SetStr (hVarServer w) hVar type value s2 = Some (rc, s3) →
       calls w (lua_call var_set [LNumber n; LString value] w)
         = [EvGetType (hVarServer w) hVar; EvSetStr (hVarServer w) hVar type value]
       ∧ returned (lua_call var_set [LNumber n; LString value] w)
         = Some (if bool_decide (rc = EOK) then [LNumber (Z2double 1)] else [])).
Proof.
  split.
  - intros name hVar s1 type s2 rc s3 Hfind Hvalid Htype Hset.
    rewrite (var_set_name_done _ _ _ _ _ _ _ _ _ _ Hfind Hvalid Htype Hset).
    split; [apply calls_app; reflexivity | reflexivity].
  - intros n hVar type s2 rc s3 Hcast Hvalid Htype Hset.
    rewrite (var_set_handle_done _ _ _ _ _ _ _ _ _ Hcast Hvalid Htype Hset).
    split; [apply calls_app; reflexivity | reflexivity].
Qed.

(** X5: [var.set] reads the value after it has resolved the reference.
    Without a value (or with one that is neither a string nor a number) it
    raises a Lua error for argument 2; a name has been looked up by then,
    but no type query and no set is made. *)
Theorem var_set_checks_value_after_lookup (w : World) (rest : list LuaValue) :
  no_text (head rest) →
  (∀ name hVar s1,
     VAR_FindByName (hVarServer w) name (server w) = Some (hVar, s1) →
     returned (lua_call var_set (LString name :: rest) w) = None
     ∧ (∃ w', lua_call var_set (LString name :: rest) w
              = Raise (bad_argument 2 "string") w')
     ∧ calls w (lua_call var_set (LString name :: rest) w)
       = [EvFindByName (hVarServer w) name])
  ∧ (∀ n hVar,
       double_to_uint32 n = Some hVar →
       lua_call var_set (LNumber n :: rest) w
         = Raise (bad_argument 2 "string") (set_stack (LNumber n :: rest) w)
       ∧ calls w (lua_call var_set (LNumber n :: rest) w) = []).
Proof.
  intros Hbad. split.
  - intros name hVar s1 Hfind.
    rewrite (var_set_name_no_value _ _ _ _ _ Hfind Hbad).
    split; [reflexivity |]. split; [eexists; reflexivity |].
    apply calls_raise. reflexivity.
  - intros n hVar Hcast. rewrite (var_set_handle_no_value _ _ _ _ Hcast Hbad).
    split; [reflexivity | apply calls_none].
Qed.

(** X6: [var.notify] makes one [VAR_Notify] call with the handle and the
    notification type read from its arguments and returns exactly one
    value: the status, which is [EOK], on success and [nil] otherwise. *)
Theorem var_notify_one_result (w : World) n1 n2 hVar kind rc s :
  double_to_uint32 n1 = Some hVar →
  double_to_int n2 = Some kind →
  VAR_Notify (hVarServer w) hVar kind (server w) = Some (rc, s) →
  calls w (lua_call var_notify [LNumber n1; LNumber n2] w)
    = [EvNotify (hVarServer w) hVar kind]
  ∧ (rc = EOK →
     returned (lua_call var_notify [LNumber n1; LNumber n2] w)
       = Some [LNumber (Z2double EOK)])
  ∧ (rc ≠ EOK →
     returned (lua_call var_notify [LNumber n1; LNumber n2] w) = Some [LNil]).
Proof.
  intros Hh Hk Hnotify. rewrite (var_notify_done _ _ _ _ _ _ _ _ Hh Hk Hnotify).
  split; [apply calls_app; reflexivity |]. split; intros Hrc; cbn.
  - rewrite bool_decide_eq_true_2 by exact Hrc. reflexivity.
  - rewrite bool_decide_eq_false_2 by exact Hrc. reflexivity.
Qed.

(** X7: [var.validate_end] sends the transaction and the response it was
    given in one [VAR_SendValidationResponse] call and returns exactly one
    value: 1 when the status is [EOK], [nil] otherwise. *)
Theorem var_validate_end_one_result (w : World) n1 n2 id response rc s :
  double_to_uint32 n1 = Some id →
  double_to_uint32 n2 = Some response →
  VAR_SendValidationResponse (hVarServer w) id response (server w) = Some (rc, s) →
  calls w (lua_call var_validate_end [LNumber n1; LNumber n2] w)
    = [EvSendValidationResponse (hVarServer w) id response]
  ∧ (rc = EOK →
     returned (lua_call var_validate_end [LNumber n1; LNumber n2] w)
       = Some [LNumber (Z2double 1)])
  ∧ (rc ≠ EOK →
     returned (lua_call var_validate_end [LNumber n1; LNumber n2] w) = Some [LNil]).
Proof.
  intros Hid Hresp Hsend.
  rewrite (var_validate_end_done _ _ _ _ _ _ _ _ Hid Hresp Hsend).
  split; [apply calls_app; reflexivity |]. split; intros Hrc; cbn.
  - rewrite bool_decide_eq_true_2 by exact Hrc. reflexivity.
  - rewrite bool_decide_eq_false_2 by exact Hrc. reflexivity.
Qed.

(** X8: [var.validate_end] without a transaction or without a response (or
    with values that are no numbers) raises a Lua error and sends nothing
    to the server. *)
Theorem var_validate_end_bad_arguments (w : World) :
  (∀ args,
     no_number (head args) →
     lua_call var_validate_end args w
       = Raise (bad_argument 1 "number") (set_stack args w)
     ∧ calls w (lua_call var_validate_end args w) = [])
  ∧ (∀ n1 id rest,
       double_to_uint32 n1 = Some id →
       no_number (head rest) →
       lua_call var_validate_end (LNumber n1 :: rest) w
         = Raise (bad_argument 2 "number") (set_stack (LNumber n1 :: rest) w)
       ∧ calls w (lua_call var_validate_end (LNumber n1 :: rest) w) = []).
Proof.
  split.
  - intros args Hbad. rewrite (var_validate_end_no_id _ _ Hbad).
    split; [reflexivity | apply calls_none].
  - intros n1 id rest Hid Hbad. rewrite (var_validate_end_no_verdict _ _ _ _ Hid Hbad).
    split; [reflexivity | apply calls_none].
Qed.

End AccessProperties.

Section LibraryProperties.
Context {vs : VarServerLib} {pl : Platform} {lc : LuaConv}.

(** X9: on success [var.open_print_session] returns a new userdata and the
    handle of the variable to print.  The userdata is at an address that was
    free, carries the file handle metatable when Lua has registered it, and
    holds the transaction, the descriptor and the handle the server
    returned, the stream [fdopen] returned for the descriptor and the close
    function of the binding; every other userdata is as it was. *)
Theorem var_open_print_session_builds_session (w : World) n id hVar fd s1 :
  double_to_uint32 n = Some id →
  VAR_OpenPrintSession (hVarServer w) id (server w) = Some ((EOK, hVar, fd), s1) →
  returned (lua_call var_open_print_session [LNumber n] w)
    = Some [LUserdata (fresh (dom (lua_heap w))); LNumber (Z2double hVar)]
  ∧ calls w (lua_call var_open_print_session [LNumber n] w)
    = [EvOpenPrintSession (hVarServer w) id; EvFdopen fd "w"]
  ∧ lua_heap w !! fresh (dom (lua_heap w)) = None
  ∧ lua_heap (after (lua_call var_open_print_session [LNumber n]) w)
      !! fresh (dom (lua_heap w))
    = Some (mkUserdata (file_metatable w)
              (new_session id fd hVar (fdopen fd "w" (platform w)).1))
  ∧ ∀ q, q ≠ fresh (dom (lua_heap w)) →
         lua_heap (after (lua_call var_open_print_session [LNumber n]) w) !! q
         = lua_heap w !! q.
Proof.
  intros Hid Hopen. unfold after.
  rewrite (var_open_print_session_opened _ _ _ _ _ _ _ Hid Hopen).
  split; [reflexivity |]. split; [apply calls_app; reflexivity |].
  split; [apply not_elem_of_dom, is_fresh |].
  split; cbn.
  - apply lookup_insert_eq.
  - intros q Hq. apply lookup_insert_ne. congruence.
Qed.

(** X10: when the server does not open the session, [var.open_print_session]
    returns a single [nil]; no userdata is created and no stream is opened. *)
Theorem var_open_print_session_refused_leaves_heap (w : World) n id rc hVar fd s1 :
  double_to_uint32 n = Some id →
  VAR_OpenPrintSession (hVarServer w) id (server w) = Some ((rc, hVar, fd), s1) →
  rc ≠ EOK →
  returned (lua_call var_open_print_session [LNumber n] w) = Some [LNil]
  ∧ calls w (lua_call var_open_print_session [LNumber n] w)
    = [EvOpenPrintSession (hVarServer w) id]
  ∧ lua_heap (after (lua_call var_open_print_session [LNumber n]) w) = lua_heap w
  ∧ platform (after (lua_call var_open_print_session [LNumber n]) w) = platform w.
Proof.
  intros Hid Hopen Hrc. unfold after.
  rewrite (var_open_print_session_refused _ _ _ _ _ _ _ _ Hid Hopen Hrc).
  split; [reflexivity |]. split; [apply calls_app; reflexivity |].
  split; reflexivity.
Qed.

(** X11: closing the session that [var.open_print_session] returned closes
    what was opened: the server-side close gets the transaction and the
    descriptor the server gave at the open, [fclose] gets the stream
    [fdopen] returned, and the session object ends cleared with its
    metatable in place. *)
Theorem open_then_close_round_trip (w : World) n id hVar fd s1 fp p1 rc s2 r p2 :
  double_to_uint32 n = Some id →
  VAR_OpenPrintSession (hVarServer w) id (server w) = Some ((EOK, hVar, fd), s1) →
  fdopen fd "w" (platform w) = (Some fp, p1) →
  LUA_FILEHANDLE ∈ lua_registry w →
  VAR_ClosePrintSession (hVarServer w) id fd s1 = Some (rc, s2) →
  fclose fp p1 = Some (r, p2) →
  calls w (open_then_close n w)
    = [EvOpenPrintSession (hVarServer w) id; EvFdopen fd "w";
       EvClosePrintSession (hVarServer w) id fd; EvFclose fp]
  ∧ returned (open_then_close n w)
    = Some (if bool_decide (rc = EOK) then [LNumber (Z2double 1)]
            else [LNil; LString (strerror rc)])
  ∧ lua_heap (after (open_then_close n) w) !! fresh (dom (lua_heap w))
    = Some (mkUserdata (Some LUA_FILEHANDLE) zero_session)
  ∧ platform (after (open_then_close n) w) = p2.
Proof.
  intros Hid Hopen Hfdopen Hreg Hclose Hfclose. unfold after.
  rewrite (open_then_close_run _ _ _ _ _ _ _ _ _ _ _ _
             Hid Hopen Hfdopen Hreg Hclose Hfclose).
  split; [apply calls_app; reflexivity |]. split; [reflexivity |].
  split; [apply lookup_insert_eq | reflexivity].
Qed.

(** X12: [var.open_print_session] does not test the result of [fdopen].
    When [fdopen] returns [NULL] the open still returns a session and the
    handle, and closing that session calls [fclose] on the null stream,
    which is undefined. *)
Theorem open_then_close_without_stream (w : World) n id hVar fd s1 p1 rc s2 :
  double_to_uint32 n = Some id →
  VAR_OpenPrintSession (hVarServer w) id (server w) = Some ((EOK, hVar, fd), s1) →
  fdopen fd "w" (platform w) = (None, p1) →
  LUA_FILEHANDLE ∈ lua_registry w →
  VAR_ClosePrintSession (hVarServer w) id fd s1 = Some (rc, s2) →
  returned (lua_call var_open_print_session [LNumber n] w)
    = Some [LUserdata (fresh (dom (lua_heap w))); LNumber (Z2double hVar)]
  ∧ open_then_close n w = Undefined.
Proof.
  intros Hid Hopen Hfdopen Hreg Hclose. split.
  - rewrite (var_open_print_session_opened _ _ _ _ _ _ _ Hid Hopen). reflexivity.
  - apply (open_then_close_no_stream _ _ _ _ _ _ _ _ _ Hid Hopen Hfdopen Hreg Hclose).
Qed.

(** X13: [var.close_print_session] accepts a userdata with the file handle
    metatable only.  For any other argument, or none, it raises a Lua error
    for argument 1 before it calls the server or the C library. *)
Theorem var_close_print_session_rejects_others (w : World) (args : list LuaValue) :
  (∀ p s, head args = Some (LUserdata p) → ¬ is_session w p s) →
  lua_call var_close_print_session args w
    = Raise (bad_argument 1 LUA_FILEHANDLE) (set_stack args w)
  ∧ calls w (lua_call var_close_print_session args w) = [].
Proof.
  intros Hbad. rewrite (var_close_print_session_bad_argument _ _ Hbad).
  split; [reflexivity | apply calls_none].
Qed.

Lemma lua_call_luaopen_connected (w : World) args (a : Z) :
  hVarServer w = Some a →
  lua_call luaopen_libluavars args w =
    Done [LTable vars_lib]
      (mkWorld (Some a) (server w) (platform w) [] (lua_heap w)
         (with_constants (lua_globals w)) (lua_registry w) (trace w)).
Proof.
  intros Hh. unfold lua_call. unfold mbind at 1 2, M_bind, modify.
  rewrite (luaopen_connected _ a) by exact Hh. unfold_monad. cbn -[app top].
  rewrite top_values by reflexivity. reflexivity.
Qed.

Lemma lua_call_luaopen_first (w : World) args h s :
  hVarServer w = None →
  VARSERVER_Open (server w) = Some (h, s) →
  lua_call luaopen_libluavars args w =
    Done [LTable vars_lib]
      (mkWorld h s (platform w) [] (lua_heap w)
         (with_constants (lua_globals w)) (lua_registry w) (trace w ++ [EvOpen])).
Proof.
  intros Hh Hopen. unfold lua_call. unfold mbind at 1 2, M_bind, modify.
  rewrite (luaopen_first _ h s) by assumption. unfold_monad. cbn -[app top].
  rewrite top_values by reflexivity. reflexivity.
Qed.

(** X14: with a null handle [luaopen_libluavars] calls [VARSERVER_Open]
    once and stores what it returns.  When that is [NULL] again, the next
    load calls [VARSERVER_Open] again. *)
Theorem luaopen_connects_when_null (w : World) args h s :
  hVarServer w = None →
  VARSERVER_Open (server w) = Some (h, s) →
  calls w (lua_call luaopen_libluavars args w) = [EvOpen]
  ∧ hVarServer (after (lua_call luaopen_libluavars args) w) = h
  ∧ server (after (lua_call luaopen_libluavars args) w) = s
  ∧ (h = None →
     ∀ args' h' s',
       VARSERVER_Open s = Some (h', s') →
       calls (after (lua_call luaopen_libluavars args) w)
             (lua_call luaopen_libluavars args'
                (after (lua_call luaopen_libluavars args) w)) = [EvOpen]
       ∧ hVarServer (after (lua_call luaopen_libluavars args')
                       (after (lua_call luaopen_libluavars args) w)) = h').
Proof.
  intros Hh Hopen. unfold after.
  rewrite (lua_call_luaopen_first _ _ _ _ Hh Hopen). cbn [final default].
  split; [apply calls_app; reflexivity |]. split; [reflexivity |].
  split; [reflexivity |].
  intros -> args' h' s' Hopen'.
  erewrite (lua_call_luaopen_first _ args' h' s'); [| reflexivity | exact Hopen'].
  split; [apply calls_app; reflexivity | reflexivity].
Qed.

(** X15: loading the library returns one value, the table of the ten
    library functions, and defines the eight global constants (the four
    signal numbers and the four notification types); every other global and
    the userdata heap are as they were. *)
Theorem luaopen_table_and_constants (w : World) args :
  (hVarServer w ≠ None ∨ is_Some (VARSERVER_Open (server w))) →
  returned (lua_call luaopen_libluavars args w) = Some [LTable vars_lib]
  ∧ length vars_lib = 10%nat
  ∧ (∀ name value,
       (name, value) ∈ constants →
       lua_globals (after (lua_call luaopen_libluavars args) w) !! name
       = Some (LNumber (Z2double value)))
  ∧ (∀ name,
       name ∉ constants.*1 →
       lua_globals (after (lua_call luaopen_libluavars args) w) !! name
       = lua_globals w !! name)
  ∧ lua_heap (after (lua_call luaopen_libluavars args) w) = lua_heap w.
Proof.
  intros Hopen. unfold after.
  assert (∃ h s tr, lua_call luaopen_libluavars args w =
            Done [LTable vars_lib]
              (mkWorld h s (platform w) [] (lua_heap w)
                 (with_constants (lua_globals w)) (lua_registry w) tr))
    as (h & s & tr & ->).
  { destruct (hVarServer w) as [a |] eqn:Hh.
    - eexists _, _, _. apply (lua_call_luaopen_connected _ _ a Hh).
    - destruct Hopen as [Hne | [[h s] Hs]]; [congruence |].
      eexists _, _, _. apply (lua_call_luaopen_first _ _ h s Hh Hs). }
  cbn [returned final default lua_globals lua_heap].
  split; [reflexivity |]. split; [reflexivity |].
  split; [intros name value Hin; apply with_constants_defined, Hin |].
  split; [intros name Hout; apply with_constants_others, Hout | reflexivity].
Qed.

(** X16: no function of the library table writes the connection handle,
    a Lua global or the registry: whenever one returns or raises, the three
    are as they were. *)
Theorem library_keeps_environment (fn : lua_CFunction) (L : lua_State_ptr)
    (w w' : World) :
  final (c_function fn L w) = Some w' →
  hVarServer w' = hVarServer w
  ∧ lua_globals w' = lua_globals w
  ∧ lua_registry w' = lua_registry w.
Proof.
  intros Hfinal. pose proof (c_function_keeps_environment fn L w) as Hkeeps.
  rewrite Hfinal in Hkeeps. exact Hkeeps.
Qed.

Lemma c_function_keeps_heap (fn : lua_CFunction) (L : lua_State_ptr) :
  fn ≠ fn_var_open_print_session →
  fn ≠ fn_var_close_print_session →
  keeps same_heap (c_function fn L).
Proof.
  intros Hopen Hclose.
  destruct fn; try contradiction; cbn [c_function];
    unfold var_get, var_find, var_set, var_notify, var_wait, var_validate_start,
      var_validate_end, global_unload;
    cbn zeta; keeps_walk.
Qed.

(** X17: only the two print session functions touch userdata: whenever
    another function of the library table returns or raises, the userdata
    heap is as it was. *)
Theorem library_keeps_heap (fn : lua_CFunction) (L : lua_State_ptr) (w w' : World) :
  fn ≠ fn_var_open_print_session →
  fn ≠ fn_var_close_print_session →
  final (c_function fn L w) = Some w' →
  lua_heap w' = lua_heap w.
Proof.
  intros Hopen Hclose Hfinal.
  pose proof (c_function_keeps_heap fn L Hopen Hclose w) as Hkeeps.
  rewrite Hfinal in Hkeeps. exact Hkeeps.
Qed.

(** X18: for a request the server returns with a type outside the eight
    the binding names, [var.validate_start] has fetched the request but
    returns no value. *)
Theorem var_validate_start_unnamed_type (w : World) n id hVar var s tag :
  double_to_uint32 n = Some id →
  VAR_GetValidationRequest (hVarServer w) id BUFSIZ (server w)
    = Some ((EOK, hVar, var), s) →
  var_type var = VARTYPE_unnamed tag →
  returned (lua_call var_validate_start [LNumber n] w) = Some []
  ∧ calls w (lua_call var_validate_start [LNumber n] w)
    = [EvGetValidationRequest (hVarServer w) id].
Proof.
  intros Hid Hreq Htype. rewrite (var_validate_start_pending _ _ _ _ _ _ _ Hid Hreq).
  unfold validation_value. rewrite Htype.
  split; [reflexivity | apply calls_app; reflexivity].
Qed.

End LibraryProperties.

(** ** Integers as Lua numbers *)

Lemma digits2_pos_size (p : positive) : digits2_pos p = Pos.size p.
Proof. induction p; cbn; congruence. Qed.

Lemma digits2_pos_shift (p k : positive) :
  digits2_pos (Pos.iter xO p k) = (digits2_pos p + k)%positive.
Proof.
  induction k using Pos.peano_ind.
  - cbn. lia.
  - rewrite Pos.iter_succ. cbn. rewrite IHk. lia.
Qed.

Lemma Zpos_shift (p k : positive) :
  Z.pos (Pos.iter xO p k) = Z.pos p * 2 ^ Z.pos k.
Proof.
  induction k using Pos.peano_ind.
  - cbn. lia.
  - rewrite Pos.iter_succ, Pos2Z.inj_succ, Z.pow_succ_r by lia.
    rewrite Pos2Z.inj_xO, IHk. lia.
Qed.

Lemma digits2_pos_bound (p : positive) (n : Z) :
  0 <= n → Z.pos p < 2 ^ n → Z.pos (digits2_pos p) <= n.
Proof.
  intros Hn Hp. rewrite digits2_pos_size.
  pose proof (Pos.size_le p) as Hle.
  apply Pos2Z.pos_le_pos in Hle. rewrite Pos2Z.inj_pow, Pos2Z.inj_xO in Hle.
  destruct (Z_le_gt_dec (Z.pos (Pos.size p)) n) as [H | H]; [exact H |].
  exfalso.
  assert (2 ^ (n + 1) <= 2 ^ Z.pos (Pos.size p)) by (apply Z.pow_le_mono_r; lia).
  rewrite Z.pow_add_r in H0 by lia. change ((2 * 1) ^ Z.pos (Pos.size p)) with (2 ^ Z.pos (Pos.size p)) in Hle.
  change (2 ^ 1) with 2 in H0. lia.
Qed.

Lemma normalize_small (p : positive) :
  Z.pos (digits2_pos p) < 53 →
  ∃ k, Z.pos k = 53 - Z.pos (digits2_pos p)
       ∧ binary_normalize 53 1024 (Z.pos p) 0 false
         = S754_finite false (Pos.iter xO p k) (- Z.pos k).
Proof.
  intros Hd.
  destruct (53 - Z.pos (digits2_pos p)) as [| k | k] eqn:Hk; try lia.
  exists k. split; [reflexivity |].
  unfold binary_normalize, binary_round.
  assert (fexp 53 1024 (Z.pos (digits2_pos p) + 0) = - Z.pos k) as ->.
  { unfold fexp, emin. lia. }
  unfold shl_align. replace (- Z.pos k - 0) with (Z.neg k) by lia.
  unfold binary_round_aux, shr_fexp, Zdigits2.
  rewrite digits2_pos_shift.
  assert (fexp 53 1024 (Z.pos (digits2_pos p + k) + - Z.pos k) - - Z.pos k = 0) as ->.
  { unfold fexp, emin. lia. }
  cbn [shr shr_record_of_loc shr_m loc_of_shr_record round_nearest_even].
  unfold Zdigits2. rewrite digits2_pos_shift.
  assert (fexp 53 1024 (Z.pos (digits2_pos p + k) + - Z.pos k) - - Z.pos k = 0) as ->.
  { unfold fexp, emin. lia. }
  cbn [shr shr_record_of_loc shr_m].
  destruct (Z.leb_spec (- Z.pos k) (1024 - 53)); [reflexivity | lia].
Qed.

Lemma double_trunc_Z2double (z : Z) :
  0 <= z < 2 ^ 52 → double_trunc (Z2double z) = Some z.
Proof.
  intros [Hlo Hhi]. unfold double_trunc, Z2double.
  destruct z as [| p | p]; [reflexivity | | lia].
  pose proof (digits2_pos_bound p 52 ltac:(lia) Hhi) as Hd.
  destruct (normalize_small p ltac:(lia)) as (k & Hk & ->).
  rewrite Prim2SF_SF2Prim.
  - rewrite Zpos_shift.
    replace (0 <=? - Z.pos k) with false by (symmetry; apply Z.leb_gt; lia).
    rewrite Z.opp_involutive, Z.div_mul by (apply Z.pow_nonzero; lia).
    reflexivity.
  - unfold SpecFloat.valid_binary, bounded, canonical_mantissa.
    rewrite digits2_pos_shift. unfold fexp, emin, FloatOps.prec, FloatOps.emax.
    apply andb_true_intro. split; [apply Z.eqb_eq; lia | apply Z.leb_le; lia].
Qed.

Lemma double_to_uint32_Z2double (z : Z) :
  0 <= z < 2 ^ 32 → double_to_uint32 (Z2double z) = Some z.
Proof.
  intros [Hlo Hhi]. unfold double_to_uint32.
  rewrite double_trunc_Z2double by lia.
  destruct (Z.leb_spec 0 z); [| lia]. destruct (Z.ltb_spec z (2 ^ 32)); [| lia].
  reflexivity.
Qed.

Section Numbers.
Context {vs : VarServerLib} {pl : Platform} {lc : LuaConv}.

Lemma var_validate_start_calls (w : World) n rest id rc hVar var s :
  double_to_uint32 n = Some id →
  VAR_GetValidationRequest (hVarServer w) id BUFSIZ (server w)
    = Some ((rc, hVar, var), s) →
  ∃ rs, lua_call var_validate_start (LNumber n :: rest) w =
    Done rs
      (mkWorld (hVarServer w) s (platform w) [] (lua_heap w) (lua_globals w)
         (lua_registry w) (trace w ++ [EvGetValidationRequest (hVarServer w) id]))
    ∧ (rc ≠ EOK → rs = [])
    ∧ (rc = EOK → rs = match validation_value var with
                       | [] => []
                       | v => LNumber (Z2double hVar) :: v
                       end).
Proof.
  intros Hid Hreq. destruct (decide (rc = EOK)) as [-> | Hrc].
  - eexists. split; [apply (var_validate_start_pending _ _ _ _ _ _ _ Hid Hreq) |].
    split; [congruence | reflexivity].
  - eexists. split; [apply (var_validate_start_not_pending _ _ _ _ _ _ _ _ Hid Hreq Hrc) |].
    split; [reflexivity | congruence].
Qed.

(** X19: a handle survives the passage through a Lua number: the handle
    [var.find] returned, given to [var.set], is the handle the type query
    and the set are made with, as if the name had been given. *)
Theorem find_then_set_uses_handle (w : World) name value hVar s1 type s2 rc s3 :
  VAR_FindByName (hVarServer w) name (server w) = Some (hVar, s1) →
  hVar ≠ VAR_INVALID →
  0 <= hVar < 2 ^ 32 →
  VAR_GetType (hVarServer w) hVar s1 = Some ((EOK, type), s2) →
  VAR_SetStr (hVarServer w) hVar type value s2 = Some (rc, s3) →
  calls w (find_then_set name value w)
    = [EvFindByName (hVarServer w) name; EvGetType (hVarServer w) hVar;
       EvSetStr (hVarServer w) hVar type value]
  ∧ returned (find_then_set name value w)
    = Some (if bool_decide (rc = EOK) then [LNumber (Z2double 1)] else [])
  ∧ server <$> final (find_then_set name value w) = Some s3.
Proof.
  intros Hfind Hvalid Hrange Htype Hset.
  unfold find_then_set, mbind, M_bind.
  rewrite (var_find_found _ _ _ _ _ Hfind Hvalid). cbn [app].
  erewrite var_set_handle_done;
    [ | apply double_to_uint32_Z2double, Hrange | exact Hvalid
      | exact Htype | exact Hset ].
  split; [| split; reflexivity].
  apply calls_app. cbn -[app]. rewrite <- app_assoc. reflexivity.
Qed.

(** X20: the transaction a signal carries reaches the server unchanged:
    after [var.wait] has returned the payload of a delivered signal,
    [var.validate_start] of that payload asks the library for the request
    with that number (for a payload that is not negative). *)
Theorem wait_then_validate_start_same_id (w : World) sig info p rc hVar var s :
  sigwaitinfo wait_set (uninitialised_siginfo (masked w)) (masked w)
    = Some ((sig, info), p) →
  0 <= sival_int info < 2 ^ 32 →
  VAR_GetValidationRequest (hVarServer w) (sival_int info) BUFSIZ (server w)
    = Some ((rc, hVar, var), s) →
  calls w (wait_then_validate_start w)
    = [EvSigprocmask SIG_BLOCK wait_set; EvSigwaitinfo wait_set;
       EvGetValidationRequest (hVarServer w) (sival_int info)]
  ∧ (rc ≠ EOK → returned (wait_then_validate_start w) = Some []).
Proof.
  intros Hwait Hrange Hreq.
  unfold wait_then_validate_start, mbind, M_bind.
  rewrite (var_wait_returns _ _ _ _ _ Hwait). cbn [drop].
  edestruct (var_validate_start_calls
               (mkWorld (hVarServer w) (server w) p [] (lua_heap w) (lua_globals w)
                  (lua_registry w) (trace w ++ wait_trace))
               (Z2double (sival_int info)) [] (sival_int info) rc hVar var s)
    as (rs & -> & Hfail & _).
  - apply double_to_uint32_Z2double, Hrange.
  - exact Hreq.
  - split.
    + apply calls_app. cbn -[app]. rewrite <- app_assoc. reflexivity.
    + intros Hrc. cbn. rewrite (Hfail Hrc). reflexivity.
Qed.

End Numbers.

(** ** The further properties on the sample environment *)

Module Examples.
Import Sample.

Lemma var_find_one_lookup_witness :
  calls loaded (lua_call var_find [LString "temperature"] loaded)
    = [EvFindByName (Some client) "temperature"]
  ∧ returned (lua_call var_find [LString "temperature"] loaded) = Some [LNumber 1].
Proof.
  destruct (var_find_one_lookup loaded "temperature" 1 (server loaded))
    as (Hcalls & Hfound & _).
  - vm_compute. reflexivity.
  - split; [exact Hcalls | apply Hfound; discriminate].
Defined.

Lemma var_get_absent_witness :
  returned (lua_call var_get [LString "pressure"] loaded) = Some []
  ∧ calls loaded (lua_call var_get [LString "pressure"] loaded)
    = [EvFindByName (Some client) "pressure"].
Proof.
  destruct (var_get_absent loaded "pressure") as (Hunknown & _).
  apply (Hunknown (server loaded)). vm_compute. reflexivity.
Defined.

Lemma var_get_find_bad_argument_witness :
  lua_call var_get [LNil] loaded
    = Raise (bad_argument 1 "string") (set_stack [LNil] loaded).
Proof.
  destruct (var_get_find_bad_argument loaded [LNil]) as (Hget & _).
  - exact I.
  - exact Hget.
Defined.

Lemma var_set_sets_with_queried_type_witness :
  calls loaded (lua_call var_set [LString "temperature"; LString "25"] loaded)
    = [EvFindByName (Some client) "temperature"; EvGetType (Some client) 1;
       EvSetStr (Some client) 1 VARTYPE_UINT16 "25"]
  ∧ returned (lua_call var_set [LString "temperature"; LString "25"] loaded)
    = Some [LNumber 1].
Proof.
  destruct (var_set_sets_with_queried_type loaded "25") as (Hname & _).
  apply (Hname "temperature" 1 (server loaded) VARTYPE_UINT16 (server loaded) 0
           (server (after (lua_call var_set [LString "temperature"; LString "25"])
                      loaded))).
  - vm_compute. reflexivity.
  - discriminate.
  - vm_compute. reflexivity.
  - vm_compute. reflexivity.
Defined.

Lemma var_set_checks_value_after_lookup_witness :
  calls loaded (lua_call var_set [LString "temperature"] loaded)
    = [EvFindByName (Some client) "temperature"]
  ∧ returned (lua_call var_set [LString "temperature"] loaded) = None.
Proof.
  destruct (var_set_checks_value_after_lookup loaded []) as (Hname & _).
  - exact I.
  - destruct (Hname "temperature" 1 (server loaded)) as (Hnone & _ & Hcalls).
    + vm_compute. reflexivity.
    + split; [exact Hcalls | exact Hnone].
Defined.

Lemma var_notify_one_result_witness :
  calls loaded (lua_call var_notify [LNumber 1; LNumber 3] loaded)
    = [EvNotify (Some client) 1 3]
  ∧ returned (lua_call var_notify [LNumber 1; LNumber 3] loaded) = Some [LNumber 0].
Proof.
  destruct (var_notify_one_result loaded 1%float 3%float 1 3 0 (server loaded))
    as (Hcalls & Hok & _).
  - vm_compute. reflexivity.
  - vm_compute. reflexivity.
  - vm_compute. reflexivity.
  - split; [exact Hcalls | apply Hok; reflexivity].
Defined.

Lemma var_validate_end_one_result_witness :
  calls loaded (lua_call var_validate_end [LNumber 7; LNumber 1] loaded)
    = [EvSendValidationResponse (Some client) 7 1]
  ∧ returned (lua_call var_validate_end [LNumber 7; LNumber 1] loaded)
    = Some [LNumber 1].
Proof.
  destruct (var_validate_end_one_result loaded 7%float 1%float 7 1 0
              (server (after (lua_call var_validate_end [LNumber 7; LNumber 1])
                         loaded)))
    as (Hcalls & Hok & _).
  - vm_compute. reflexivity.
  - vm_compute. reflexivity.
  - vm_compute. reflexivity.
  - split; [exact Hcalls | apply Hok; reflexivity].
Defined.

Lemma var_validate_end_bad_arguments_witness :
  lua_call var_validate_end [LNumber 7] loaded
    = Raise (bad_argument 2 "number") (set_stack [LNumber 7] loaded)
  ∧ calls loaded (lua_call var_validate_end [LNumber 7] loaded) = [].
Proof.
  destruct (var_validate_end_bad_arguments loaded) as (_ & Hsecond).
  apply (Hsecond 7%float 7 []).
  - vm_compute. reflexivity.
  - exact I.
Defined.

Lemma var_open_print_session_builds_session_witness :
  returned (lua_call var_open_print_session [LNumber 42] loaded)
    = Some [LUserdata 0; LNumber 2]
  ∧ lua_heap printing !! 0%nat = Some (mkUserdata (Some LUA_FILEHANDLE) session_42).
Proof.
  destruct (var_open_print_session_builds_session loaded 42%float 42 2 5 (server loaded))
    as (Hret & _ & _ & Hobject & _).
  - vm_compute. reflexivity.
  - vm_compute. reflexivity.
  - split; [exact Hret | exact Hobject].
Defined.

Lemma var_open_print_session_refused_leaves_heap_witness :
  returned (lua_call var_open_print_session [LNumber 43] loaded) = Some [LNil]
  ∧ calls loaded (lua_call var_open_print_session [LNumber 43] loaded)
    = [EvOpenPrintSession (Some client) 43].
Proof.
  destruct (var_open_print_session_refused_leaves_heap loaded 43%float 43 ENOENT 0 (-1)
              (server loaded))
    as (Hret & Hcalls & _).
  - vm_compute. reflexivity.
  - vm_compute. reflexivity.
  - discriminate.
  - split; [exact Hret | exact Hcalls].
Defined.

Lemma open_then_close_round_trip_witness :
  calls loaded (open_then_close 42%float loaded)
    = [EvOpenPrintSession (Some client) 42; EvFdopen 5 "w";
       EvClosePrintSession (Some client) 42 5; EvFclose 65541]
  ∧ returned (open_then_close 42%float loaded) = Some [LNumber 1].
Proof.
  destruct (open_then_close_round_trip loaded 42%float 42 2 5 (server loaded) 65541
              (platform printing) 0 (server printed) 0 (platform printed))
    as (Hcalls & Hret & _).
  - vm_compute. reflexivity.
  - vm_compute. reflexivity.
  - vm_compute. reflexivity.
  - apply elem_of_singleton. reflexivity.
  - vm_compute. reflexivity.
  - vm_compute. reflexivity.
  - split; [exact Hcalls | exact Hret].
Defined.

Lemma open_then_close_without_stream_witness :
  returned (lua_call var_open_print_session [LNumber 43] stale)
    = Some [LUserdata 0; LNumber 2]
  ∧ open_then_close 43%float stale = Undefined.
Proof.
  apply (open_then_close_without_stream stale 43%float 43 2 (-1) (server stale)
           (platform stale) 0 (with_prints ∅ (server loaded))).
  - vm_compute. reflexivity.
  - vm_compute. reflexivity.
  - vm_compute. reflexivity.
  - apply elem_of_singleton. reflexivity.
  - vm_compute. reflexivity.
Defined.

Lemma var_close_print_session_rejects_others_witness :
  lua_call var_close_print_session [LNumber 1] loaded
    = Raise (bad_argument 1 LUA_FILEHANDLE) (set_stack [LNumber 1] loaded).
Proof.
  destruct (var_close_print_session_rejects_others loaded [LNumber 1]) as (Hraise & _).
  - intros p s Hhead. discriminate Hhead.
  - exact Hraise.
Defined.

Lemma luaopen_connects_when_null_witness :
  calls boot (lua_call luaopen_libluavars [] boot) = [EvOpen]
  ∧ hVarServer (after (lua_call luaopen_libluavars []) boot) = Some client.
Proof.
  destruct (luaopen_connects_when_null boot [] (Some client)
              (with_connected true sample_server))
    as (Hcalls & Hh & _).
  - reflexivity.
  - reflexivity.
  - split; [exact Hcalls | exact Hh].
Defined.

Lemma luaopen_table_and_constants_witness :
  returned (lua_call luaopen_libluavars [] boot) = Some [LTable vars_lib]
  ∧ lua_globals loaded !! "SIG_VAR_PRINT" = Some (LNumber 43).
Proof.
  destruct (luaopen_table_and_constants boot []) as (Hret & _ & Hdefined & _).
  - right. eexists. reflexivity.
  - split; [exact Hret |].
    apply (Hdefined "SIG_VAR_PRINT" 43). vm_compute.
    do 3 apply list_elem_of_further. apply list_elem_of_here.
Defined.

Lemma final_after {A} (m : M A) (w : World) :
  came_back (m w) = true → final (m w) = Some (after m w).
Proof. unfold after. destruct (m w); cbn; congruence. Qed.

Lemma library_keeps_environment_witness :
  hVarServer (after (c_function fn_var_set L_state) setting) = hVarServer setting
  ∧ lua_globals (after (c_function fn_var_set L_state) setting) = lua_globals setting
  ∧ lua_registry (after (c_function fn_var_set L_state) setting)
    = lua_registry setting.
Proof.
  apply (library_keeps_environment fn_var_set L_state setting
           (after (c_function fn_var_set L_state) setting)).
  apply final_after. vm_compute. reflexivity.
Defined.

Lemma library_keeps_heap_witness :
  lua_heap (after (c_function fn_var_set L_state) setting) = lua_heap setting.
Proof.
  apply (library_keeps_heap fn_var_set L_state setting
           (after (c_function fn_var_set L_state) setting)).
  - discriminate.
  - discriminate.
  - apply final_after. vm_compute. reflexivity.
Defined.

Lemma var_validate_start_unnamed_type_witness :
  returned (lua_call var_validate_start [LNumber 9] odd) = Some []
  ∧ calls odd (lua_call var_validate_start [LNumber 9] odd)
    = [EvGetValidationRequest (Some client) 9].
Proof.
  apply (var_validate_start_unnamed_type odd 9%float 9 1 no_object (server odd) 0).
  - vm_compute. reflexivity.
  - vm_compute. reflexivity.
  - reflexivity.
Defined.

Lemma find_then_set_uses_handle_witness :
  calls loaded (find_then_set "temperature" "25" loaded)
    = [EvFindByName (Some client) "temperature"; EvGetType (Some client) 1;
       EvSetStr (Some client) 1 VARTYPE_UINT16 "25"]
  ∧ returned (find_then_set "temperature" "25" loaded) = Some [LNumber 1].
Proof.
  destruct (find_then_set_uses_handle loaded "temperature" "25" 1 (server loaded)
              VARTYPE_UINT16 (server loaded) 0
              (server (after (find_then_set "temperature" "25") loaded)))
    as (Hcalls & Hret & _).
  - vm_compute. reflexivity.
  - discriminate.
  - lia.
  - vm_compute. reflexivity.
  - vm_compute. reflexivity.
  - split; [exact Hcalls | exact Hret].
Defined.

Lemma wait_then_validate_start_same_id_witness :
  calls loaded (wait_then_validate_start loaded)
    = [EvSigprocmask SIG_BLOCK wait_set; EvSigwaitinfo wait_set;
       EvGetValidationRequest (Some client) 7].
Proof.
  destruct (wait_then_validate_start_same_id loaded 42 (mkSiginfo 7)
              (mkPlatform ∅ [Interrupted; Signal (rt_min + 9) 42] (mkSiginfo 12345))
              0 1 (uint16_object 30) (server loaded))
    as (Hcalls & _).
  - vm_compute. reflexivity.
  - cbn. lia.
  - vm_compute. reflexivity.
  - exact Hcalls.
Defined.

End Examples.
